(** * Natural-language query pipeline of the analytics dashboard

    A shallow embedding of the guard rails of the dashboard's
    natural-language-to-SQL pipeline:

    - [database/queries.py]      : [clean_sql_query], [is_safe_query],
                                   [handle_query_error], [execute_sql_query];
    - [ai/response_parser.py]    : [extract_sql_from_text], [clean_extracted_sql],
                                   [validate_visualization_type],
                                   [parse_openai_response];
    - [ai/prompt_manager.py]     : [get_sample_queries],
                                   [validate_prompt_parameters];
    - [ai/openai_client.py]      : [validate_query_generation];
    - [pages/custom_query.py]    : [process_ai_response], [handle_empty_results],
                                   [show_fallback_suggestions],
                                   [handle_query_submission],
                                   [handle_auto_run_queries],
                                   [generate_related_suggestions];
    - [database/queries.py]      : also [validate_sql_query] and
                                   [format_query_for_display];
    - [ai/response_parser.py]    : also [validate_parsed_response];
    - [ai/prompt_manager.py]     : also [detect_business_domain] and
                                   [enhance_prompt_with_context];
    - [utils/validators.py]      : [validate_query_input], [sanitize_input],
                                   [validate_username].

    Text is modelled as [string] (a list of 8-bit characters).  The Python
    string methods are modelled on their ASCII behaviour: case mapping only
    touches [a-z]/[A-Z], and the white space of [str.strip], [str.split] and
    the regular expression class [\s] is the ASCII part of [str.isspace]
    (codes 9-13, 28-31 and 32). *)

From Stdlib Require Import String Ascii List Bool Arith Lia.
Import ListNotations.
Open Scope list_scope.
Open Scope string_scope.
Open Scope nat_scope.

(* ================================================================== *)
(** ** Python string methods                                           *)
(* ================================================================== *)

Module PyStr.

Definition code (c : ascii) : nat := nat_of_ascii c.

(** [str.isspace] on one ASCII character. *)
Definition isspace (c : ascii) : bool :=
  ((9 <=? code c) && (code c <=? 13)) || ((28 <=? code c) && (code c <=? 32)).

Definition is_lower (c : ascii) : bool := (97 <=? code c) && (code c <=? 122).
Definition is_upper (c : ascii) : bool := (65 <=? code c) && (code c <=? 90).
Definition is_digit (c : ascii) : bool := (48 <=? code c) && (code c <=? 57).

Definition upper_char (c : ascii) : ascii :=
  if is_lower c then ascii_of_nat (code c - 32) else c.
Definition lower_char (c : ascii) : ascii :=
  if is_upper c then ascii_of_nat (code c + 32) else c.

Fixpoint map_string (f : ascii -> ascii) (s : string) : string :=
  match s with
  | EmptyString => EmptyString
  | String c s' => String (f c) (map_string f s')
  end.

(** [s.upper()] and [s.lower()]. *)
Definition upper : string -> string := map_string upper_char.
Definition lower : string -> string := map_string lower_char.

(** [s.lstrip(chars)] and [s.rstrip(chars)], the character set given as a
    predicate. *)
Fixpoint lstrip_by (p : ascii -> bool) (s : string) : string :=
  match s with
  | EmptyString => EmptyString
  | String c s' => if p c then lstrip_by p s' else s
  end.

Fixpoint rstrip_by (p : ascii -> bool) (s : string) : string :=
  match s with
  | EmptyString => EmptyString
  | String c s' =>
      match rstrip_by p s' with
      | EmptyString => if p c then EmptyString else String c EmptyString
      | r => String c r
      end
  end.

(** [s.strip()]. *)
Definition strip (s : string) : string := rstrip_by isspace (lstrip_by isspace s).

(** [s.rstrip(';')]. *)
Definition rstrip_semicolon (s : string) : string :=
  rstrip_by (fun c => Ascii.eqb c ";") s.

(** [s.startswith(p)]. *)
Definition startswith (s p : string) : bool := prefix p s.

(** [s.startswith((p1, ..., pn))]. *)
Definition startswith_any (s : string) (ps : list string) : bool :=
  existsb (startswith s) ps.

(** [needle in s]. *)
Fixpoint contains (needle s : string) : bool :=
  prefix needle s ||
  match s with
  | EmptyString => false
  | String _ s' => contains needle s'
  end.

(** [s.replace(old, new)] for a non-empty [old]: the occurrences are taken
    from the left and do not overlap.  [skip] counts the characters of an
    occurrence that are still to be dropped. *)
Fixpoint replace_from (old new : string) (skip : nat) (s : string) : string :=
  match s with
  | EmptyString => EmptyString
  | String c s' =>
      match skip with
      | S k => replace_from old new k s'
      | O =>
          if prefix old s
          then new ++ replace_from old new (String.length old - 1) s'
          else String c (replace_from old new 0 s')
      end
  end.

Definition replace (s old new : string) : string := replace_from old new 0 s.

(** [s.split(sep)] for a one-character separator. *)
Fixpoint split_char (sep : ascii) (s : string) : list string :=
  match s with
  | EmptyString => [EmptyString]
  | String c s' =>
      if Ascii.eqb c sep then EmptyString :: split_char sep s'
      else match split_char sep s' with
           | h :: t => String c h :: t
           | [] => [String c EmptyString]
           end
  end.

(** [s.split(sep)[0]]: the text before the first occurrence of [sep]. *)
Fixpoint before (sep s : string) : string :=
  if prefix sep s then EmptyString
  else match s with
       | EmptyString => EmptyString
       | String c s' => String c (before sep s')
       end.

(** [s.split()]: the maximal runs of characters that are not white space. *)
Fixpoint split_ws (s : string) : list string :=
  match s with
  | EmptyString => []
  | String c s' =>
      if isspace c then split_ws s'
      else match s' with
           | EmptyString => [String c EmptyString]
           | String d _ =>
               if isspace d then String c EmptyString :: split_ws s'
               else match split_ws s' with
                    | h :: t => String c h :: t
                    | [] => [String c EmptyString]
                    end
           end
  end.

(** [sep.join(l)]. *)
Definition join (sep : string) (l : list string) : string := String.concat sep l.

(** [' '.join(s.split())]. *)
Definition collapse_ws (s : string) : string := join " " (split_ws s).

(** Truth value of a string: [if s:]. *)
Definition truthy (s : string) : bool :=
  match s with EmptyString => false | _ => true end.

Definition newline : ascii := ascii_of_nat 10.
Definition nl : string := String newline EmptyString.

(** [s[:n]]. *)
Definition take (n : nat) (s : string) : string := substring 0 n s.

End PyStr.

(* ================================================================== *)
(** ** The fragment of Python's [re] the sources use                   *)
(* ================================================================== *)

(** A backtracking matcher in continuation-passing style.  It tries the
    alternatives in the order Python's engine does (left alternative first,
    a greedy star the longest run first, a lazy star the shortest first), so
    the first success is the match [re.search] reports.  Every quantifier in
    the sources is a star over a character class ([.*], [.*?], [\s*]). *)
Module Re.
Import PyStr.

Record flags := { ignorecase : bool; dotall : bool }.

Definition no_flags : flags := {| ignorecase := false; dotall := false |}.
Definition IGNORECASE : flags := {| ignorecase := true; dotall := false |}.
Definition DOTALL_IGNORECASE : flags := {| ignorecase := true; dotall := true |}.

Inductive cclass := Dot | Space.

Inductive re :=
| Eps
| Lit (l : string)
| Star (greedy : bool) (c : cclass)
| Seq (a b : re)
| Alt (a b : re)
| Eol                      (* [$] without MULTILINE *)
| WordB.                   (* [\b] *)

(** A position in the subject: the character before it and the rest. *)
Definition cfg : Type := option ascii * string.

Definition is_word (c : ascii) : bool :=
  is_lower c || is_upper c || is_digit c || Ascii.eqb c "_".

Definition word_before (c : cfg) : bool :=
  match fst c with Some a => is_word a | None => false end.
Definition word_after (c : cfg) : bool :=
  match snd c with String a _ => is_word a | EmptyString => false end.

Section Matcher.
Variable f : flags.
Variable A : Type.

Definition char_eq (x y : ascii) : bool :=
  if ignorecase f then Ascii.eqb (lower_char x) (lower_char y) else Ascii.eqb x y.

Definition in_class (cl : cclass) (a : ascii) : bool :=
  match cl with
  | Dot => dotall f || negb (Ascii.eqb a newline)
  | Space => isspace a
  end.

Fixpoint lit (l : string) (c : cfg) : option cfg :=
  match l with
  | EmptyString => Some c
  | String x l' =>
      match snd c with
      | String y s' => if char_eq x y then lit l' (Some y, s') else None
      | EmptyString => None
      end
  end.

Fixpoint star_greedy (cl : cclass) (p : option ascii) (s : string)
         (k : cfg -> option A) : option A :=
  match s with
  | String a s' =>
      if in_class cl a then
        match star_greedy cl (Some a) s' k with
        | Some r => Some r
        | None => k (p, s)
        end
      else k (p, s)
  | EmptyString => k (p, s)
  end.

Fixpoint star_lazy (cl : cclass) (p : option ascii) (s : string)
         (k : cfg -> option A) : option A :=
  match k (p, s) with
  | Some r => Some r
  | None =>
      match s with
      | String a s' => if in_class cl a then star_lazy cl (Some a) s' k else None
      | EmptyString => None
      end
  end.

Fixpoint run (r : re) (c : cfg) (k : cfg -> option A) : option A :=
  match r with
  | Eps => k c
  | Lit l => match lit l c with Some c' => k c' | None => None end
  | Star true cl => star_greedy cl (fst c) (snd c) k
  | Star false cl => star_lazy cl (fst c) (snd c) k
  | Seq a b => run a c (fun c' => run b c' k)
  | Alt a b => match run a c k with Some x => Some x | None => run b c k end
  | Eol =>
      match snd c with
      | EmptyString => k c
      | String a EmptyString => if Ascii.eqb a newline then k c else None
      | _ => None
      end
  | WordB => if xorb (word_before c) (word_after c) then k c else None
  end.

(** The leftmost start position at which [k] succeeds. *)
Fixpoint scan (p : option ascii) (s : string) (k : cfg -> option A) : option A :=
  match k (p, s) with
  | Some x => Some x
  | None =>
      match s with
      | String a s' => scan (Some a) s' k
      | EmptyString => None
      end
  end.
End Matcher.

(** The text between two positions of one subject. *)
Definition between (c1 c2 : cfg) : string :=
  take (String.length (snd c1) - String.length (snd c2)) (snd c1).

(** [re.search(pre (grp) post, s, flags)]: the pair of [group(0)] and
    [group(1)] of the first match. *)
Definition search_groups (f : flags) (pre grp post : re) (s : string)
  : option (string * string) :=
  scan (string * string) None s (fun c0 =>
    run f _ pre c0 (fun c1 =>
      run f _ grp c1 (fun c2 =>
        run f _ post c2 (fun c3 => Some (between c0 c3, between c1 c2))))).

(** [re.search(r, s, flags)] as a truth value. *)
Definition search (f : flags) (r : re) (s : string) : bool :=
  match scan unit None s (fun c0 => run f _ r c0 (fun _ => Some tt)) with
  | Some _ => true
  | None => false
  end.

(** The character before the position reached after reading [l]. *)
Fixpoint after (p : option ascii) (l : string) : option ascii :=
  match l with
  | EmptyString => p
  | String x l' => after (Some x) l'
  end.

Definition no_newline (m : string) : Prop := contains nl m = false.

End Re.

(* ================================================================== *)
(** ** The session's side effects                                      *)
(* ================================================================== *)

(** The page functions return nothing: what they do is what they show and
    which collaborators they call.  A run is modelled by the list of these
    events, in order, next to the value it returns. *)
Module Session.

(** A [pandas.DataFrame]: the column labels and the rows. *)
Record DataFrame := { columns : list string; rows : list (list string) }.

(** [pd.DataFrame()]. *)
Definition pd_DataFrame : DataFrame := {| columns := []; rows := [] |}.

(** [df.empty]: some axis has length 0. *)
Definition empty (df : DataFrame) : bool :=
  (List.length (columns df) =? 0) || (List.length (rows df) =? 0).

(** [st.session_state.db_engine]: a SQLite file path (a [str]) or a
    SQLAlchemy engine. *)
Inductive db_handle :=
| SqlitePath (db_path : string)
| PostgresEngine (engine : nat).

(** What a call of [pd.read_sql_query] does: it returns a frame or raises. *)
Inductive outcome :=
| Returns (df : DataFrame)
| Raises (error_msg : string).

(** What a run shows and whom it calls.  Message texts are the source's,
    without their leading pictographs. *)
Inductive event :=
| st_error (msg : string)
| st_warning (msg : string)
| st_info (msg : string)
| st_subheader (title : string)
| st_code (body : string)
| render_status_indicator (status msg : string)
| render_info_box (title content box_type : string)
| create_visualization (df : DataFrame) (viz_type viz_reason question : string)
| display_query_statistics (df : DataFrame) (sql_query : string)
| suggestion_buttons (suggestions : list string)
| backend_call (sql : string) (db : db_handle)
| model_call (question prompt table_info : string) (attempt : nat).

(** The collaborators outside the repository: the chat-completion model
    behind [generate_sql_from_question] ([None] when the call failed) and
    the database behind [pd.read_sql_query]. *)
Record World := {
  generate : string -> string -> string -> nat -> option string;
  read_sql_query : string -> db_handle -> outcome
}.

(** [st.session_state]. *)
Record session_state := {
  table_name : string;
  session_columns : list string;
  data_types : option (list (string * string));
  db_engine : db_handle
}.

Definition Run (A : Type) : Type := list event * A.

Definition ret {A} (a : A) : Run A := ([], a).
Definition bind {A B} (m : Run A) (k : A -> Run B) : Run B :=
  let (t1, a) := m in let (t2, b) := k a in ((t1 ++ t2)%list, b).
Definition emit (e : event) : Run unit := ([e], tt).

Definition trace {A} (m : Run A) : list event := fst m.
Definition value {A} (m : Run A) : A := snd m.

Module Notations.
Notation "x <- m ;; k" := (bind m (fun x => k))
  (at level 61, m at next level, right associativity).
Notation "m ;; k" := (bind m (fun _ => k))
  (at level 61, right associativity).
End Notations.

End Session.

(* ================================================================== *)
(** ** database/queries.py                                             *)
(* ================================================================== *)

Module Queries.
Import PyStr Re Session Session.Notations.

(** The loop of [clean_sql_query] over the lines of a fenced text: a fence
    line toggles [in_code_block], another line is kept when the flag is
    off. *)
Fixpoint fence_loop (lines : list string) (in_code_block : bool) : list string :=
  match lines with
  | [] => []
  | line :: rest =>
      if startswith (strip line) "```" then fence_loop rest (negb in_code_block)
      else if negb in_code_block then line :: fence_loop rest in_code_block
      else fence_loop rest in_code_block
  end.

Definition clean_sql_query (sql : string) : string :=
  if negb (truthy sql) then ""
  else
    let sql := strip sql in
    let sql :=
      if startswith sql "```"
      then strip (join nl (fence_loop (split_char newline sql) false))
      else sql in
    let sql := strip (rstrip_semicolon sql) in
    collapse_ws sql.

Definition safe_starts : list string :=
  ["SELECT"; "WITH"; "SHOW"; "DESCRIBE"; "EXPLAIN"].

Definition dangerous_keywords : list string :=
  ["DROP"; "DELETE"; "UPDATE"; "INSERT"; "ALTER"; "CREATE";
   "TRUNCATE"; "GRANT"; "REVOKE"; "EXEC"; "EXECUTE"].

(** [r'--'], [r'/\*'], [r';.*SELECT'], [r'UNION.*SELECT']. *)
Definition suspicious_patterns : list re :=
  [ Lit "--";
    Lit "/*";
    Seq (Lit ";") (Seq (Star true Dot) (Lit "SELECT"));
    Seq (Lit "UNION") (Seq (Star true Dot) (Lit "SELECT")) ].

Definition is_safe_query (sql : string) : bool :=
  let sql_upper := strip (upper sql) in
  if negb (existsb (fun keyword => startswith sql_upper keyword) safe_starts)
  then false
  else if existsb (fun keyword => contains keyword sql_upper) dangerous_keywords
  then false
  else if existsb (fun pattern => search no_flags pattern sql_upper) suspicious_patterns
  then false
  else true.

Definition handle_query_error (error_msg sql : string) : Run unit :=
  if contains "syntax error" (lower error_msg) then
    emit (st_error ("SQL Syntax Error: " ++ error_msg)) ;;
    emit (st_error ("**Query:** `" ++ take 200 sql ++
                    (if 200 <? String.length sql then "..." else "") ++ "`")) ;;
    emit (st_info "The AI might have generated invalid SQL. Try rephrasing your question.")
  else if contains "does not exist" (lower error_msg) then
    emit (st_error ("Database Error: " ++ error_msg)) ;;
    emit (st_info "The table or column might not exist. Check your data source.")
  else if contains "permission" (lower error_msg) then
    emit (st_error ("Permission Error: " ++ error_msg)) ;;
    emit (st_info "You don't have permission to access this data.")
  else
    emit (st_error ("Database Error: " ++ error_msg)).

(** [execute_sqlite_query] and [execute_postgres_query]: one call of
    [pd.read_sql_query] on the attached source. *)
Definition execute_backend (w : World) (sql : string) (db : db_handle)
  : Run outcome :=
  emit (backend_call sql db) ;; ret (read_sql_query w sql db).

(** The [try] block and its [except Exception] handler. *)
Definition execute_sql_query (w : World) (sql : string) (db : db_handle)
  : Run DataFrame :=
  let sql := clean_sql_query sql in
  if negb (truthy sql) || (String.length (strip sql) <? 5) then
    emit (st_error "Generated SQL query is too short or empty") ;;
    ret pd_DataFrame
  else if negb (is_safe_query sql) then
    emit (st_error "Query contains potentially unsafe operations") ;;
    ret pd_DataFrame
  else
    r <- execute_backend w sql db ;;
    match r with
    | Returns df => ret df
    | Raises e => handle_query_error e sql ;; ret pd_DataFrame
    end.

End Queries.

(* ================================================================== *)
(** ** ai/response_parser.py                                           *)
(* ================================================================== *)

Module ResponseParser.
Import PyStr Re.

(** [r'```sql\s*(.*?)\s*```'] *)
Definition fenced_sql_pattern : re * re * re :=
  (Seq (Lit "```sql") (Star true Space),
   Star false Dot,
   Seq (Star true Space) (Lit "```")).

(** [r'SQL_QUERY:\s*(.*?)(?:\n|$)'] *)
Definition sql_query_pattern : re * re * re :=
  (Seq (Lit "SQL_QUERY:") (Star true Space),
   Star false Dot,
   Alt (Lit nl) Eol).

(** [r'(SELECT.*?(?:;|$))'] *)
Definition select_pattern : re * re * re :=
  (Eps, Seq (Lit "SELECT") (Seq (Star false Dot) (Alt (Lit ";") Eol)), Eps).

(** [r'\b(SELECT|WITH)\b.*'] *)
Definition sql_like_pattern : re * re * re :=
  (WordB, Alt (Lit "SELECT") (Lit "WITH"), Seq WordB (Star true Dot)).

(** [r'(SELECT.*?)(?:\s*(?:VIZ_TYPE|VIZ_REASON|ALTERNATIVE|INSIGHTS|$))'] *)
Definition embedded_select_pattern : re * re * re :=
  (Eps,
   Seq (Lit "SELECT") (Star false Dot),
   Seq (Star true Space)
       (Alt (Lit "VIZ_TYPE") (Alt (Lit "VIZ_REASON")
         (Alt (Lit "ALTERNATIVE") (Alt (Lit "INSIGHTS") Eol))))).

Definition re_search (f : flags) (p : re * re * re) (s : string)
  : option (string * string) :=
  let '(pre, grp, post) := p in search_groups f pre grp post s.

(** Both fence markers removed: [.replace('```sql', '').replace('```', '')]. *)
Definition strip_fences (s : string) : string :=
  replace (replace s "```sql" "") "```" "".

(** The loop [for delimiter in [...]] of [extract_sql_from_text]. *)
Definition cut_at_delimiters (sql_text : string) : string :=
  fold_left
    (fun sql_text delimiter =>
       if contains delimiter sql_text then before delimiter sql_text else sql_text)
    [nl ++ nl; "VIZ_TYPE:"; "INSIGHTS:"; "Explanation:"; "Note:"]
    sql_text.

Definition extract_sql_from_text (text : string) : string :=
  match re_search DOTALL_IGNORECASE fenced_sql_pattern text with
  | Some (_, g1) => strip g1
  | None =>
  match re_search IGNORECASE sql_query_pattern text with
  | Some (_, g1) => strip (strip_fences (strip g1))
  | None =>
  match re_search DOTALL_IGNORECASE select_pattern text with
  | Some (_, g1) => strip (rstrip_semicolon (strip g1))
  | None =>
  match re_search DOTALL_IGNORECASE sql_like_pattern text with
  | Some (g0, _) => rstrip_semicolon (strip (cut_at_delimiters g0))
  | None => ""
  end end end end.

Definition clean_extracted_sql (sql : string) : string :=
  if negb (truthy sql) then ""
  else
    let sql := strip_fences sql in
    let sql := collapse_ws sql in
    let sql := strip (rstrip_semicolon sql) in
    if negb (startswith_any (strip (upper sql)) ["SELECT"; "WITH"; "SHOW"]) then
      match re_search DOTALL_IGNORECASE embedded_select_pattern sql with
      | Some (_, g1) => strip g1
      | None => sql
      end
    else sql.

Definition valid_types : list string :=
  ["bar_chart"; "line_chart"; "pie_chart"; "scatter_plot";
   "histogram"; "box_plot"; "heatmap"; "table"].

(** The dictionary [type_mappings], in insertion order (the order in which
    the [for] loop visits its items). *)
Definition type_mappings : list (string * string) :=
  [("bar", "bar_chart"); ("column", "bar_chart");
   ("line", "line_chart"); ("trend", "line_chart");
   ("pie", "pie_chart"); ("donut", "pie_chart");
   ("scatter", "scatter_plot"); ("scatterplot", "scatter_plot");
   ("hist", "histogram"); ("distribution", "histogram");
   ("box", "box_plot"); ("boxplot", "box_plot");
   ("heat", "heatmap"); ("correlation", "heatmap")].

Definition validate_visualization_type (viz_type : string) : string :=
  let viz_type := strip (lower viz_type) in
  if existsb (String.eqb viz_type) valid_types then viz_type
  else
    match find (fun kv => contains (fst kv) viz_type) type_mappings with
    | Some kv => snd kv
    | None => "bar_chart"
    end.

(** The four variables the line loop of [parse_openai_response] assigns. *)
Record fields := {
  sql_query : string;
  viz_type : string;
  viz_reason : string;
  insights : string
}.

Definition parse_line (acc : fields) (line : string) : fields :=
  if startswith line "SQL_QUERY:" then
    {| sql_query := strip (strip_fences (strip (replace line "SQL_QUERY:" "")));
       viz_type := viz_type acc;
       viz_reason := viz_reason acc;
       insights := insights acc |}
  else if startswith line "VIZ_TYPE:" then
    {| sql_query := sql_query acc;
       viz_type := strip (replace line "VIZ_TYPE:" "");
       viz_reason := viz_reason acc;
       insights := insights acc |}
  else if startswith line "VIZ_REASON:" then
    {| sql_query := sql_query acc;
       viz_type := viz_type acc;
       viz_reason := strip (replace line "VIZ_REASON:" "");
       insights := insights acc |}
  else if startswith line "INSIGHTS:" then
    {| sql_query := sql_query acc;
       viz_type := viz_type acc;
       viz_reason := viz_reason acc;
       insights := strip (replace line "INSIGHTS:" "") |}
  else acc.

Definition defaults : fields :=
  {| sql_query := ""; viz_type := "bar_chart";
     viz_reason := "Default visualization"; insights := "" |}.

Definition parse_openai_response (response_text : string)
  : string * string * string * string :=
  if negb (truthy response_text)
  then ("", "bar_chart", "Default visualization", "")
  else
    let lines := split_char newline response_text in
    let acc := fold_left parse_line lines defaults in
    let sql := sql_query acc in
    let sql := if negb (truthy sql) then extract_sql_from_text response_text else sql in
    let sql := if truthy sql then clean_extracted_sql sql else sql in
    (sql, validate_visualization_type (viz_type acc), viz_reason acc, insights acc).

End ResponseParser.

(* ================================================================== *)
(** ** ai/prompt_manager.py                                            *)
(* ================================================================== *)

Module PromptManager.
Import PyStr.

(** [(data_types or {}).items()]: a dictionary is modelled by its items in
    insertion order. *)
Definition items (data_types : option (list (string * string)))
  : list (string * string) :=
  match data_types with
  | Some d => d
  | None => []
  end.

Definition cols_of (p : string -> bool) (data_types : option (list (string * string)))
  : list string :=
  map fst (filter (fun kv => p (snd kv)) (items data_types)).

Definition truthy_list {A} (l : list A) : bool :=
  match l with [] => false | _ => true end.

(** [l[i]] of a list of strings, at an index the code has checked. *)
Definition at_ (l : list string) (i : nat) : string := nth i l "".

Definition get_sample_queries (table_name : string) (columns : list string)
           (data_types : option (list (string * string))) : list string :=
  let numeric_cols :=
    cols_of (fun dtype => existsb (String.eqb dtype) ["integer"; "numeric"]) data_types in
  let text_cols := cols_of (fun dtype => String.eqb dtype "text") data_types in
  let date_cols := cols_of (fun dtype => String.eqb dtype "datetime") data_types in
  let queries :=
    ["Show me a sample of the data";
     "What are the column statistics?";
     "How many total records are there?"] in
  let queries :=
    if truthy_list text_cols
    then List.app queries ["Show distribution of " ++ at_ text_cols 0;
                      "What are the most common values in " ++ at_ text_cols 0 ++ "?"]
    else queries in
  let queries :=
    if truthy_list numeric_cols
    then List.app queries ["Show statistics for " ++ at_ numeric_cols 0;
                      "What's the average " ++ at_ numeric_cols 0 ++ "?"]
    else queries in
  let queries :=
    if 2 <=? List.length numeric_cols
    then List.app queries ["Compare " ++ at_ numeric_cols 0 ++ " and " ++ at_ numeric_cols 1]
    else queries in
  let queries :=
    if truthy_list text_cols && truthy_list numeric_cols
    then List.app queries ["Show " ++ at_ numeric_cols 0 ++ " by " ++ at_ text_cols 0]
    else queries in
  let queries :=
    if truthy_list date_cols
    then List.app queries ["Show trends over " ++ at_ date_cols 0;
                      "What's the date range in the data?"]
    else queries in
  firstn 8 queries.

Definition validate_prompt_parameters (table_name : string) (columns : list string)
           (data_types : option (list (string * string))) : bool * string :=
  if negb (truthy table_name) then (false, "Table name is required")
  else if negb (truthy_list columns) || (List.length columns =? 0)
  then (false, "At least one column is required")
  else if 1000 <? List.length columns then (false, "Too many columns (max 1000)")
  else if truthy_list (items data_types) &&
          negb (List.length (items data_types) =? List.length columns)
  then (false, "Data types count must match columns count")
  else (true, "Valid prompt parameters").

End PromptManager.

(* ================================================================== *)
(** ** ai/openai_client.py                                             *)
(* ================================================================== *)

Module OpenAIClient.
Import PyStr.

Definition problematic_keywords : list string :=
  ["hack"; "exploit"; "bypass"; "inject"].

Definition validate_query_generation (question : string) : bool * string :=
  if negb (truthy question) || (String.length (strip question) <? 5)
  then (false, "Question is too short or empty")
  else if 500 <? String.length question
  then (false, "Question is too long (max 500 characters)")
  else
    let question_lower := lower question in
    match find (fun keyword => contains keyword question_lower) problematic_keywords with
    | Some keyword => (false, "Question contains inappropriate content: " ++ keyword)
    | None => (true, "Question is valid for processing")
    end.

End OpenAIClient.

(* ================================================================== *)
(** ** pages/custom_query.py                                           *)
(* ================================================================== *)

Module CustomQuery.
Import PyStr Session Session.Notations.
Import Queries ResponseParser PromptManager.

Section Page.
Variable w : World.
Variable st : session_state.

(** [generate_sql_from_question(question, prompt, table_info, attempt)]:
    one exchange with the model. *)
Definition generate_sql_from_question (question prompt table_info : string)
           (attempt : nat) : Run (option string) :=
  emit (model_call question prompt table_info attempt) ;;
  ret (generate w question prompt table_info attempt).

(** [if response:] on a value that is [None] or a string. *)
Definition truthy_response (r : option string) : option string :=
  match r with
  | Some s => if truthy s then Some s else None
  | None => None
  end.

Definition show_fallback_suggestions : Run unit :=
  emit (render_status_indicator "error"
          "Unable to generate results. Here are some suggestions:") ;;
  emit (st_subheader "Try These Queries Instead") ;;
  emit (suggestion_buttons
          (get_sample_queries (table_name st) (session_columns st) (data_types st))).

Definition handle_empty_results (question prompt table_info : string) : Run unit :=
  emit (st_warning "No results found. Let me try a different approach...") ;;
  fallback_response <- generate_sql_from_question question prompt table_info 2 ;;
  match truthy_response fallback_response with
  | Some fallback_response =>
      let '(fallback_sql, fallback_viz, fallback_reason, fallback_insights) :=
        parse_openai_response fallback_response in
      if truthy fallback_sql then
        emit (st_subheader "Alternative Query Approach") ;;
        emit (st_code fallback_sql) ;;
        fallback_df <- execute_sql_query w fallback_sql (db_engine st) ;;
        if negb (empty fallback_df) then
          emit (st_subheader "Exploratory Results") ;;
          emit (create_visualization fallback_df fallback_viz fallback_reason question) ;;
          if truthy fallback_insights
          then emit (render_info_box "Alternative Insights" fallback_insights "info")
          else ret tt
        else show_fallback_suggestions
      else show_fallback_suggestions
  | None => show_fallback_suggestions
  end.

Definition process_ai_response (question response prompt table_info : string)
  : Run unit :=
  let '(sql_query, viz_type, viz_reason, insights) := parse_openai_response response in
  if negb (truthy sql_query) then
    emit (render_status_indicator "error"
            "Could not extract a valid SQL query from AI response.")
  else
    emit (st_subheader "Generated SQL Query") ;;
    emit (st_code sql_query) ;;
    df <- execute_sql_query w sql_query (db_engine st) ;;
    if negb (empty df) then
      emit (st_subheader "Query Results & Visualization") ;;
      emit (create_visualization df viz_type viz_reason question) ;;
      (if truthy insights
       then emit (render_info_box "AI Insights" insights "success")
       else ret tt) ;;
      emit (display_query_statistics df sql_query)
    else
      handle_empty_results question prompt table_info.

(** [handle_query_submission], from the point where the prompt and the
    table summary have been built ([create_dynamic_prompt] and the
    f-string over the session are taken as given). *)
Definition handle_query_submission (question prompt table_info : string)
  : Run unit :=
  if negb (truthy question) || negb (truthy (strip question)) then
    emit (st_warning "Please enter a question to analyze your data.")
  else if String.length (strip question) <? 5 then
    emit (st_warning "Please enter a more detailed question.")
  else
    response <- generate_sql_from_question question prompt table_info 1 ;;
    match truthy_response response with
    | Some response => process_ai_response question response prompt table_info
    | None =>
        emit (render_status_indicator "error"
                "Failed to generate SQL query. Please try again with a different question.")
    end.

End Page.

End CustomQuery.

(* ================================================================== *)
(** ** Vocabulary of the properties                                    *)
(* ================================================================== *)

Module Outcomes.
Import PyStr Session Queries.

(** The executor's outcomes, as the conditions of [execute_sql_query]
    separate them. *)
Definition too_short (sql : string) : Prop :=
  String.length (strip (clean_sql_query sql)) < 5.

Definition rejected (sql : string) : Prop :=
  is_safe_query (clean_sql_query sql) = false.

Definition backend_raises (w : World) (sql : string) (db : db_handle) : Prop :=
  exists e, read_sql_query w (clean_sql_query sql) db = Raises e.

Definition executed (w : World) (sql : string) (db : db_handle) (df : DataFrame) : Prop :=
  5 <= String.length (strip (clean_sql_query sql)) /\
  is_safe_query (clean_sql_query sql) = true /\
  read_sql_query w (clean_sql_query sql) db = Returns df.

(** The failures of a run, and a run that matched no row. *)
Definition failed (w : World) (sql : string) (db : db_handle) : Prop :=
  too_short sql \/ rejected sql \/ backend_raises w sql db.

Definition matched_no_row (w : World) (sql : string) (db : db_handle) : Prop :=
  exists df, executed w sql db df /\ rows df = [].

(** The page's successful branch, after the executor has returned. *)
Definition show_results (question sql viz reason ins : string) (df : DataFrame)
  : list event :=
  [st_subheader "Query Results & Visualization";
   create_visualization df viz reason question]
  ++ (if truthy ins then [render_info_box "AI Insights" ins "success"] else [])
  ++ [display_query_statistics df sql].

End Outcomes.

(* ================================================================== *)
(** ** Responses in the requested format                               *)
(* ================================================================== *)

Module Canonical.
Import PyStr ResponseParser.




(** The model's answer in the spec's scenario A. *)
Definition scenario_A : string :=
  "SQL_QUERY: SELECT region, SUM(sales) FROM t GROUP BY region" ++ nl ++
  "VIZ_TYPE: bar" ++ nl ++
  "VIZ_REASON: ranks regions" ++ nl ++
  "INSIGHTS: region A leads".

End Canonical.

(* ================================================================== *)
(** ** Sample sessions                                                 *)
(* ================================================================== *)

Module Scenarios.
Import PyStr Session.

Definition st0 : session_state :=
  {| table_name := "users";
     session_columns := ["id"; "name"];
     data_types := Some [("id", "integer"); ("name", "text")];
     db_engine := SqlitePath "app.db" |}.

Definition one_row : DataFrame := {| columns := ["name"]; rows := [["ann"]] |}.

(** The model answers the first prompt with a destructive statement and the
    exploratory prompt with a plain SELECT; the database answers. *)
Definition scripted : World :=
  {| generate := fun _ _ _ attempt =>
       if attempt =? 1
       then Some ("SQL_QUERY: DROP TABLE users" ++ nl ++ "VIZ_TYPE: table" ++ nl ++
                  "VIZ_REASON: none" ++ nl ++ "INSIGHTS: none")
       else Some ("SQL_QUERY: SELECT name FROM users" ++ nl ++ "VIZ_TYPE: table" ++ nl ++
                  "VIZ_REASON: lists the users" ++ nl ++ "INSIGHTS: one user");
     read_sql_query := fun _ _ => Returns one_row |}.


(** The database answers every query with a frame of one column and no
    row. *)
Definition quiet : World :=
  {| generate := fun _ _ _ _ => None;
     read_sql_query := fun _ _ => Returns {| columns := ["name"]; rows := [] |} |}.

(** Nothing answers. *)
Definition down : World :=
  {| generate := fun _ _ _ _ => None;
     read_sql_query := fun _ _ => Raises "connection refused" |}.

End Scenarios.

(* ================================================================== *)
(** ** database/queries.py: validation and display                     *)
(* ================================================================== *)

Module QueryValidation.
Import PyStr Queries.

Definition validate_sql_query (sql : string) : bool * string :=
  if negb (truthy sql) || negb (truthy (strip sql)) then (false, "Query is empty")
  else
    let cleaned_sql := clean_sql_query sql in
    if String.length cleaned_sql <? 5 then (false, "Query is too short")
    else if 10000 <? String.length cleaned_sql
    then (false, "Query is too long (max 10,000 characters)")
    else if negb (is_safe_query cleaned_sql)
    then (false, "Query contains unsafe operations")
    else if negb (startswith_any (upper cleaned_sql) ["SELECT"; "WITH"])
    then (false, "Query must start with SELECT or WITH")
    else (true, "Valid query").

Definition display_keywords : list string :=
  ["SELECT"; "FROM"; "WHERE"; "GROUP BY"; "ORDER BY"; "HAVING";
   "JOIN"; "LEFT JOIN"; "RIGHT JOIN"; "INNER JOIN"; "OUTER JOIN";
   "UNION"; "WITH"; "AS"; "AND"; "OR"; "IN"; "NOT IN"; "EXISTS";
   "CASE"; "WHEN"; "THEN"; "ELSE"; "END"; "LIMIT"; "OFFSET"].

Definition breaking_keywords : list string :=
  ["FROM"; "WHERE"; "GROUP BY"; "ORDER BY"; "HAVING"].

(** One turn of the loop of [format_query_for_display]. *)
Definition break_before (formatted_sql keyword : string) : string :=
  if existsb (String.eqb keyword) breaking_keywords
  then replace formatted_sql (" " ++ keyword ++ " ") (nl ++ keyword ++ " ")
  else formatted_sql.

Definition format_query_for_display (sql : string) : string :=
  if negb (truthy sql) then ""
  else fold_left break_before display_keywords sql.

End QueryValidation.

(* ================================================================== *)
(** ** ai/response_parser.py: the companion validator                  *)
(* ================================================================== *)

Module ResponseValidation.
Import PyStr ResponseParser.

Definition valid_viz_types : list string :=
  ["bar_chart"; "line_chart"; "pie_chart"; "scatter_plot";
   "histogram"; "box_plot"; "heatmap"; "table"].

(** The list [issues] that [validate_parsed_response] builds. *)
Definition issues (sql_query viz_type viz_reason insights : string) : list string :=
  List.app
    (if negb (truthy sql_query) then ["No SQL query found in response"]
     else if String.length sql_query <? 10 then ["SQL query appears too short"]
     else if negb (startswith_any (strip (upper sql_query)) ["SELECT"; "WITH"])
     then ["SQL query doesn't start with SELECT or WITH"]
     else [])
    (List.app
       (if negb (existsb (String.eqb viz_type) valid_viz_types)
        then ["Invalid visualization type: " ++ viz_type]
        else [])
       (if negb (truthy viz_reason)
        then ["No visualization reasoning provided"]
        else [])).

Definition validate_parsed_response (sql_query viz_type viz_reason insights : string)
  : bool * string :=
  match issues sql_query viz_type viz_reason insights with
  | [] => (true, "Response validation successful")
  | l => (false, join "; " l)
  end.

End ResponseValidation.

(* ================================================================== *)
(** ** ai/prompt_manager.py: domain detection and prompt context       *)
(* ================================================================== *)

Module PromptContext.
Import PyStr.

(** The dictionary [domains], in insertion order. *)
Definition domains : list (string * list string) :=
  [("retail", ["sales"; "product"; "customer"; "order"; "price"; "quantity"; "inventory"]);
   ("finance", ["account"; "transaction"; "balance"; "amount"; "payment"; "credit"; "debit"]);
   ("healthcare", ["patient"; "diagnosis"; "treatment"; "medication"; "hospital"; "doctor"]);
   ("marketing", ["campaign"; "click"; "impression"; "conversion"; "lead"; "channel"]);
   ("hr", ["employee"; "salary"; "department"; "hire"; "performance"; "training"]);
   ("education", ["student"; "course"; "grade"; "enrollment"; "teacher"; "class"]);
   ("logistics", ["shipment"; "delivery"; "warehouse"; "supplier"; "inventory"; "transport"])].

(** [sum(1 for keyword in keywords if keyword in column_text)]. *)
Definition score (column_text : string) (keywords : list string) : nat :=
  List.length (filter (fun keyword => contains keyword column_text) keywords).

(** [max(values)]. *)
Definition max_value (values : list nat) : nat := fold_right Nat.max 0 values.

(** [max(d, key=d.get)] over the items of a dictionary: the first key whose
    value is not exceeded by a later one. *)
Fixpoint max_key (items : list (string * nat)) (best : string * nat) : string :=
  match items with
  | [] => fst best
  | kv :: rest => if snd best <? snd kv then max_key rest kv else max_key rest best
  end.

Definition detect_business_domain (columns : list string) : string :=
  let column_text := lower (join " " columns) in
  let domain_scores :=
    map (fun dk => (fst dk, score column_text (snd dk))) domains in
  let max_score :=
    match domain_scores with
    | [] => 0
    | _ => max_value (map snd domain_scores)
    end in
  if 2 <=? max_score then
    match domain_scores with
    | first :: rest => max_key rest first
    | [] => "general"
    end
  else "general".

(** [context_info.get(key)] on a dictionary with text values; a missing key
    gives [None]. *)
Fixpoint get (context_info : list (string * string)) (key : string) : option string :=
  match context_info with
  | [] => None
  | (k, v) :: rest => if String.eqb k key then Some v else get rest key
  end.

Definition truthy_entry (context_info : list (string * string)) (key : string) : bool :=
  match get context_info key with
  | Some v => truthy v
  | None => false
  end.

Definition entry (context_info : list (string * string)) (key : string) : string :=
  match get context_info key with
  | Some v => v
  | None => ""
  end.

(** The list [enhancements] of [enhance_prompt_with_context]. *)
Definition enhancements (context_info : list (string * string)) : list string :=
  List.app
    (if truthy_entry context_info "previous_queries"
     then ["Previous queries in this session: " ++ entry context_info "previous_queries"]
     else [])
    (List.app
       (if truthy_entry context_info "user_preferences"
        then ["User preferences: " ++ entry context_info "user_preferences"]
        else [])
       (if truthy_entry context_info "business_context"
        then ["Business context: " ++ entry context_info "business_context"]
        else [])).

Definition enhance_prompt_with_context (base_prompt : string)
           (context_info : list (string * string)) : string :=
  match enhancements context_info with
  | [] => base_prompt
  | l => base_prompt ++ nl ++ nl ++ "Additional Context:" ++ nl ++ join nl l
  end.

End PromptContext.

(* ================================================================== *)
(** ** utils/validators.py: query input and sanitizing                 *)
(* ================================================================== *)

Module Validators.
Import PyStr Re.

(** [r'<script'], [r'javascript:'], [r'vbscript:'], [r'onload='],
    [r'onerror='], [r'eval\('], [r'exec\(']. *)
Definition dangerous_patterns : list re :=
  [Lit "<script"; Lit "javascript:"; Lit "vbscript:"; Lit "onload=";
   Lit "onerror="; Lit "eval("; Lit "exec("].

Definition validate_query_input (query : string) : bool * string :=
  if negb (truthy query) || negb (truthy (strip query))
  then (false, "Query cannot be empty")
  else if 1000 <? String.length query
  then (false, "Query too long (> 1000 characters)")
  else
    let query_lower := lower query in
    if existsb (fun pattern => search no_flags pattern query_lower) dangerous_patterns
    then (false, "Query contains potentially malicious content")
    else (true, "Valid query").

(** The character class of the substitution pattern: the angle brackets,
    the double quote and the apostrophe. *)
Definition is_markup (c : ascii) : bool :=
  Ascii.eqb c "<" || Ascii.eqb c ">" || Ascii.eqb c (ascii_of_nat 34) || Ascii.eqb c "'".

(** [re.sub(cls, '', s)] for a character class. *)
Fixpoint remove_chars (cls : ascii -> bool) (s : string) : string :=
  match s with
  | EmptyString => EmptyString
  | String c s' => if cls c then remove_chars cls s' else String c (remove_chars cls s')
  end.

Definition sanitize_input (input_str : string) : string :=
  if negb (truthy input_str) then ""
  else
    let sanitized := remove_chars is_markup input_str in
    let sanitized := collapse_ws sanitized in
    strip sanitized.

End Validators.

(* ================================================================== *)
(** ** pages/custom_query.py: suggested queries                        *)
(* ================================================================== *)

Module AutoRun.
Import PyStr Session Queries ResponseParser.

Definition base_suggestions : list string :=
  ["Show me trends over time";
   "What are the top performers?";
   "Compare different categories";
   "Show data distribution";
   "Find correlations in the data"].

Definition generate_related_suggestions (current_query : string) : list string :=
  let filtered_suggestions :=
    filter (fun s => negb (contains (lower s) (lower current_query))) base_suggestions in
  firstn 3 filtered_suggestions.

(** The events of this part of the page: those of the shared vocabulary and
    the three widgets only this part uses. *)
Inductive page_event :=
| shown (e : event)
| st_markdown (body : string)
| st_expander (label : string)
| st_write (body : string).

Definition show_related_suggestions (current_query : string) : list page_event :=
  [st_expander "More Related Questions";
   st_write "**Based on this result, you might also want to ask:**";
   shown (suggestion_buttons (firstn 3 (generate_related_suggestions current_query)))].

(** [handle_auto_run_queries], from the point where the prompt and the table
    summary have been built.  [auto_run_query] is the attribute of the
    session state ([None] when it is not set); the result holds the events
    and the attribute afterwards. *)
Definition handle_auto_run_queries (w : World) (st : session_state)
           (auto_run_query : option string) (prompt table_info : string)
  : list page_event * option string :=
  match auto_run_query with
  | None => ([], None)
  | Some auto_query =>
      ((st_markdown "---" ::
        shown (render_status_indicator "success"
                 ("Running suggested query: " ++ auto_query)) ::
        shown (model_call auto_query prompt table_info 1) ::
        match CustomQuery.truthy_response (generate w auto_query prompt table_info 1) with
        | Some response =>
            let '(sql_query, viz_type, viz_reason, insights) :=
              parse_openai_response response in
            if truthy sql_query then
              shown (st_subheader "Generated SQL Query") ::
              shown (st_code sql_query) ::
              map shown (trace (execute_sql_query w sql_query (db_engine st))) ++
              (let df := value (execute_sql_query w sql_query (db_engine st)) in
               if negb (empty df) then
                 shown (st_subheader "Query Results") ::
                 shown (create_visualization df viz_type viz_reason auto_query) ::
                 (if truthy insights
                  then [shown (render_info_box "AI Insights" insights "info")]
                  else []) ++
                 show_related_suggestions auto_query
               else
                 [shown (st_warning "No results found for this suggested query.");
                  shown (st_info
                           "Try a different suggestion or ask your own question above.")])
            else
              [shown (render_status_indicator "error"
                        "Could not generate a valid SQL query.")]
        | None =>
            [shown (render_status_indicator "error"
                      "Failed to process the suggested query. Please try a different one.")]
        end)%list,
       None)
  end.

(** The events of the shared vocabulary among the events of the page. *)
Fixpoint core (t : list page_event) : list event :=
  match t with
  | [] => []
  | shown e :: rest => e :: core rest
  | _ :: rest => core rest
  end.

End AutoRun.

(* ================================================================== *)
(** ** Column kinds of the table metadata                              *)
(* ================================================================== *)

Module Columns.
Import PyStr PromptManager.

(** The three list comprehensions over [(data_types or {}).items()]. *)
Definition numeric_cols (data_types : option (list (string * string))) : list string :=
  cols_of (fun dtype => existsb (String.eqb dtype) ["integer"; "numeric"]) data_types.

Definition text_cols (data_types : option (list (string * string))) : list string :=
  cols_of (fun dtype => String.eqb dtype "text") data_types.

Definition date_cols (data_types : option (list (string * string))) : list string :=
  cols_of (fun dtype => String.eqb dtype "datetime") data_types.

Definition generic_queries : list string :=
  ["Show me a sample of the data";
   "What are the column statistics?";
   "How many total records are there?"].

End Columns.

(* ================================================================== *)
(** ** utils/validators.py: user names                                 *)
(* ================================================================== *)

Module Accounts.
Import PyStr Re.

(** [[a-zA-Z0-9_]*$] from the current position: a run of word characters
    up to the end of the subject, where [$] also matches before a final
    line feed. *)
Fixpoint word_run_to_end (s : string) : bool :=
  match s with
  | EmptyString => true
  | String c s' =>
      if is_word c then word_run_to_end s'
      else Ascii.eqb c newline && negb (truthy s')
  end.

(** [re.match("^[a-zA-Z0-9_]+$", s)] as a truth value. *)
Definition match_word_chars (s : string) : bool :=
  match s with
  | EmptyString => false
  | String c s' => is_word c && word_run_to_end s'
  end.

(** [s[0].isalpha()] for a character of the class above. *)
Definition starts_with_letter (s : string) : bool :=
  match s with
  | EmptyString => false
  | String c _ => is_lower c || is_upper c
  end.

Definition validate_username (username : string) : bool * string :=
  if negb (truthy username) then (false, "Username is required")
  else if String.length username <? 3
  then (false, "Username must be at least 3 characters long")
  else if 50 <? String.length username
  then (false, "Username must be less than 50 characters long")
  else if negb (match_word_chars username)
  then (false, "Username can only contain letters, numbers, and underscores")
  else if negb (starts_with_letter username)
  then (false, "Username must start with a letter")
  else (true, "Valid username").

End Accounts.

(* ================================================================== *)
(** ** Layout of a text                                                *)
(* ================================================================== *)

Module Layout.
Import PyStr.

(** The text with every line feed turned into a blank. *)
Definition unbreak (s : string) : string :=
  map_string (fun c => if Ascii.eqb c newline then " "%char else c) s.

(** [t] is [s] with some of its blanks turned into line feeds: the two texts
    have the same length and hold, place by place, the same character, or a
    blank in [s] and a line feed in [t]. *)
Fixpoint breaks_only (s t : string) : bool :=
  match s, t with
  | EmptyString, EmptyString => true
  | String c s', String d t' =>
      (Ascii.eqb c d || (Ascii.eqb c " " && Ascii.eqb d newline)) && breaks_only s' t'
  | _, _ => false
  end.

End Layout.

(* ================================================================== *)
(** ** The second attempt, as a list of events                         *)
(* ================================================================== *)

Module Fallback.
Import PyStr Session Queries ResponseParser CustomQuery.

(** The events after the second model call. *)
Definition after_fallback (w : World) (st : session_state)
           (question : string) (fallback_response : option string)
  : list event :=
  match truthy_response fallback_response with
  | Some r =>
      let '(fsql, fviz, freason, fins) := parse_openai_response r in
      if truthy fsql then
        st_subheader "Alternative Query Approach" :: st_code fsql ::
        trace (execute_sql_query w fsql (db_engine st)) ++
        (if empty (value (execute_sql_query w fsql (db_engine st)))
         then trace (show_fallback_suggestions st)
         else st_subheader "Exploratory Results" ::
              create_visualization (value (execute_sql_query w fsql (db_engine st)))
                                   fviz freason question ::
              (if truthy fins
               then [render_info_box "Alternative Insights" fins "info"]
               else []))
      else trace (show_fallback_suggestions st)
  | None => trace (show_fallback_suggestions st)
  end%list.

End Fallback.

(* ================================================================== *)
(** ** Observations on texts and runs                                  *)
(* ================================================================== *)

Module Observations.
Import PyStr Session.

(** Every character of a text satisfies [p]. *)
Fixpoint all_chars (p : ascii -> bool) (s : string) : bool :=
  match s with
  | EmptyString => true
  | String c s' => p c && all_chars p s'
  end.

(** A non-empty run of characters that are not white space. *)
Definition is_token (w : string) : bool :=
  truthy w && all_chars (fun c => negb (isspace c)) w.

Definition first_char (s : string) : option ascii :=
  match s with
  | EmptyString => None
  | String c _ => Some c
  end.

Fixpoint last_char (s : string) : option ascii :=
  match s with
  | EmptyString => None
  | String c EmptyString => Some c
  | String _ s' => last_char s'
  end.


(** [str.isascii]: every character of the text has a code below 128. *)
Definition isascii (s : string) : bool := all_chars (fun c => code c <? 128) s.

(** The blank is the only white space of a text. *)
Definition only_blanks (s : string) : bool :=
  all_chars (fun c => negb (isspace c) || Ascii.eqb c " ") s.

(** The attempt numbers of the model calls of a run, in order. *)
Fixpoint attempts (t : list event) : list nat :=
  match t with
  | [] => []
  | model_call _ _ _ n :: rest => n :: attempts rest
  | _ :: rest => attempts rest
  end.

(** The texts sent to the backend in a run, in order. *)
Fixpoint executions (t : list event) : list string :=
  match t with
  | [] => []
  | backend_call sql _ :: rest => sql :: executions rest
  | _ :: rest => executions rest
  end.

End Observations.

(* ================================================================== *)
(** * Properties                                                       *)
(* ================================================================== *)

(** ** Facts about the string methods *)

Module PyStrFacts.
Import PyStr.

Lemma prefix_app (p r : string) : prefix p (p ++ r) = true.
Proof.
  induction p as [|c p IH]; simpl.
  - now destruct r.
  - destruct (ascii_dec c c) as [_|ne]; [exact IH | now elim ne].
Qed.

Lemma prefix_split (p s : string) :
  prefix p s = true -> exists r, s = p ++ r.
Proof.
  revert s; induction p as [|c p IH]; intros s H.
  - exists s; reflexivity.
  - destruct s as [|d s]; simpl in H; [discriminate|].
    destruct (ascii_dec c d) as [->|_]; [|discriminate].
    destruct (IH s H) as [r ->]. exists r; reflexivity.
Qed.

Lemma prefix_contains (n s : string) : prefix n s = true -> contains n s = true.
Proof. intros H. destruct s; cbn [contains]; rewrite H; reflexivity. Qed.

Lemma contains_app (n a b : string) : contains n (a ++ n ++ b) = true.
Proof.
  induction a as [|c a IH].
  - change (contains n (n ++ b) = true). apply prefix_contains, prefix_app.
  - cbn [append contains]. rewrite IH. apply orb_true_r.
Qed.

Lemma contains_split (n s : string) :
  contains n s = true -> exists a b, s = a ++ n ++ b.
Proof.
  induction s as [|c s IH]; cbn [contains]; intros H.
  - rewrite orb_false_r in H. destruct (prefix_split _ _ H) as [r E].
    exists "", r. exact E.
  - apply orb_true_iff in H as [H|H].
    + destruct (prefix_split _ _ H) as [r E]. exists "", r. exact E.
    + destruct (IH H) as (a & b & ->). exists (String c a), b. reflexivity.
Qed.

(** [needle in s] is the existence of an occurrence. *)
Lemma contains_iff (n s : string) :
  contains n s = true <-> exists a b, s = a ++ n ++ b.
Proof.
  split; [apply contains_split|].
  intros (a & b & ->). apply contains_app.
Qed.

Lemma contains_false (n s : string) :
  contains n s = false -> forall a b, s <> a ++ n ++ b.
Proof.
  intros H a b E. rewrite E, contains_app in H. discriminate.
Qed.

Lemma app_assoc (a b c : string) : (a ++ b) ++ c = a ++ b ++ c.
Proof. induction a; simpl; congruence. Qed.

Lemma existsb_false_In {A} (f : A -> bool) (l : list A) :
  existsb f l = false -> forall x, In x l -> f x = false.
Proof.
  intros H x Hx. destruct (f x) eqn:E; [|reflexivity].
  assert (existsb f l = true) by (apply existsb_exists; eauto). congruence.
Qed.

End PyStrFacts.

(** ** Completeness of the matcher on the shapes the safety filter uses *)

Module ReFacts.
Import PyStr Re PyStrFacts.

Section Complete.
Variable A : Type.

Lemma lit_app (l r : string) (p : option ascii) :
  lit no_flags l (p, l ++ r) = Some (after p l, r).
Proof.
  revert p; induction l as [|x l IH]; intros p; simpl; [reflexivity|].
  unfold char_eq; simpl. rewrite Ascii.eqb_refl. apply IH.
Qed.

Lemma star_greedy_base (f : flags) (cl : cclass) (p : option ascii) (r : string)
      (k : cfg -> option A) (x : A) :
  k (p, r) = Some x -> exists y, star_greedy f A cl p r k = Some y.
Proof.
  intros H. destruct r as [|a r]; simpl; [eauto|].
  destruct (in_class f cl a); [|eauto].
  destruct (star_greedy f A cl (Some a) r k); eauto.
Qed.

Lemma no_newline_cons (a : ascii) (m : string) :
  no_newline (String a m) -> Ascii.eqb a newline = false /\ no_newline m.
Proof.
  unfold no_newline; simpl. intros H. apply orb_false_iff in H as [H1 H2].
  split; [|exact H2].
  destruct (Ascii.eqb_spec a newline) as [->|]; [|reflexivity].
  exfalso. revert H1. unfold newline.
  destruct (ascii_dec (ascii_of_nat 10) (ascii_of_nat 10)) as [_|ne]; [|now elim ne].
  destruct m; discriminate.
Qed.

Lemma star_greedy_dot (m r : string) (p : option ascii)
      (k : cfg -> option A) (x : A) :
  no_newline m ->
  k (after p m, r) = Some x ->
  exists y, star_greedy no_flags A Dot p (m ++ r) k = Some y.
Proof.
  revert p; induction m as [|a m IH]; intros p Hm Hk.
  - simpl in *. eapply star_greedy_base; eauto.
  - apply no_newline_cons in Hm as [Ha Hm].
    cbn [append star_greedy in_class dotall no_flags]. rewrite Ha. simpl.
    destruct (IH (Some a) Hm Hk) as [y ->]. eauto.
Qed.

Lemma scan_app (pre s : string) (p : option ascii) (k : cfg -> option A) (x : A) :
  k (after p pre, s) = Some x -> exists y, scan A p (pre ++ s) k = Some y.
Proof.
  revert p; induction pre as [|a pre IH]; intros p Hk.
  - simpl in *. destruct s; simpl; rewrite Hk; eauto.
  - cbn [append scan]. destruct (k (p, String a (pre ++ s))); [eauto|].
    apply IH, Hk.
Qed.
End Complete.

(** A literal is found wherever it occurs. *)
Lemma search_lit (l a b : string) : search no_flags (Lit l) (a ++ l ++ b) = true.
Proof.
  unfold search.
  destruct (scan_app unit a (l ++ b) None
              (fun c0 => run no_flags unit (Lit l) c0 (fun _ => Some tt)) tt) as [y ->];
    [|reflexivity].
  simpl. rewrite lit_app. reflexivity.
Qed.

(** [x.*y] is found wherever [x] is followed on the same line by [y]. *)
Lemma search_gap (x y a m b : string) :
  no_newline m ->
  search no_flags (Seq (Lit x) (Seq (Star true Dot) (Lit y)))
         (a ++ x ++ m ++ y ++ b) = true.
Proof.
  intros Hm. unfold search.
  destruct (scan_app unit a (x ++ m ++ y ++ b) None
              (fun c0 => run no_flags unit (Seq (Lit x) (Seq (Star true Dot) (Lit y)))
                             c0 (fun _ => Some tt)) tt) as [z ->];
    [|reflexivity].
  simpl. rewrite lit_app.
  destruct (star_greedy_dot unit m (y ++ b) (after (after None a) x)
              (fun c' => match lit no_flags y c' with
                         | Some _ => Some tt
                         | None => None
                         end) tt Hm) as [z Hz].
  - rewrite lit_app. reflexivity.
  - simpl. rewrite Hz. now destruct z.
Qed.

End ReFacts.

(** ** The safety filter *)

Module SafetyFilter.
Import PyStr Re Queries PyStrFacts ReFacts.

(** What [is_safe_query] has checked when it answers [True]. *)
Lemma is_safe_query_true (sql : string) :
  is_safe_query sql = true ->
  existsb (fun keyword => startswith (strip (upper sql)) keyword) safe_starts = true /\
  existsb (fun keyword => contains keyword (strip (upper sql))) dangerous_keywords = false /\
  existsb (fun pattern => search no_flags pattern (strip (upper sql)))
          suspicious_patterns = false.
Proof.
  unfold is_safe_query; cbv zeta.
  repeat match goal with
         | |- context [existsb ?f ?l] => destruct (existsb f l); cbn [negb]
         end; try discriminate.
  auto.
Qed.

Lemma accepted_start (sql : string) :
  is_safe_query sql = true ->
  exists keyword rest,
    In keyword safe_starts /\ strip (upper sql) = keyword ++ rest.
Proof.
  intros H. apply is_safe_query_true in H as (H & _ & _).
  apply existsb_exists in H as (k & Hk & Hp).
  destruct (prefix_split _ _ Hp) as [r E]. eauto.
Qed.

Lemma accepted_no_keyword (sql : string) :
  is_safe_query sql = true ->
  forall keyword, In keyword dangerous_keywords ->
  forall a b, strip (upper sql) <> a ++ keyword ++ b.
Proof.
  intros H k Hk. apply is_safe_query_true in H as (_ & H & _).
  apply contains_false.
  exact (existsb_false_In _ _ H k Hk).
Qed.

Lemma accepted_no_pattern (sql : string) :
  is_safe_query sql = true ->
  forall pattern, In pattern suspicious_patterns ->
  search no_flags pattern (strip (upper sql)) = false.
Proof.
  intros H p Hp. apply is_safe_query_true in H as (_ & _ & H).
  exact (existsb_false_In _ _ H p Hp).
Qed.

(** C3, as the spec words it, fails: the filter accepts a query in which a
    statement separator is followed by a second SELECT on the next line.
    The patterns [;.*SELECT] and [UNION.*SELECT] are searched without
    DOTALL, and their [.] does not match a line feed. *)
Lemma stacked_select_on_next_line_accepted :
  is_safe_query ("SELECT 1;" ++ nl ++ "SELECT 2") = true /\
  strip (upper ("SELECT 1;" ++ nl ++ "SELECT 2"))
  = "SELECT 1" ++ ";" ++ nl ++ "SELECT" ++ " 2".
Proof. split; vm_compute; reflexivity. Qed.

(** C3 (amended): a query the safety filter accepts has a trimmed
    upper-cased text that starts with SELECT, WITH, SHOW, DESCRIBE or
    EXPLAIN, contains no deny-listed keyword as a substring, and matches
    none of the deny-listed patterns: no [--], no [/*], no [;] followed on
    the same line by SELECT, no UNION followed on the same line by SELECT. *)
Theorem accepted_query_shape (sql : string) :
  is_safe_query sql = true ->
  (exists keyword rest,
      In keyword ["SELECT"; "WITH"; "SHOW"; "DESCRIBE"; "EXPLAIN"] /\
      strip (upper sql) = keyword ++ rest) /\
  (forall keyword,
      In keyword ["DROP"; "DELETE"; "UPDATE"; "INSERT"; "ALTER"; "CREATE";
                  "TRUNCATE"; "GRANT"; "REVOKE"; "EXEC"; "EXECUTE"] ->
      forall a b, strip (upper sql) <> a ++ keyword ++ b) /\
  (forall pattern, In pattern suspicious_patterns ->
      search no_flags pattern (strip (upper sql)) = false) /\
  (forall a b, strip (upper sql) <> a ++ "--" ++ b) /\
  (forall a b, strip (upper sql) <> a ++ "/*" ++ b) /\
  (forall a m b, no_newline m -> strip (upper sql) <> a ++ ";" ++ m ++ "SELECT" ++ b) /\
  (forall a m b, no_newline m -> strip (upper sql) <> a ++ "UNION" ++ m ++ "SELECT" ++ b).
Proof.
  intros H.
  pose proof (accepted_no_pattern sql H) as P.
  split; [exact (accepted_start sql H)|].
  split; [exact (accepted_no_keyword sql H)|].
  split; [exact P|].
  repeat split.
  - intros a b E.
    assert (F : search no_flags (Lit "--") (strip (upper sql)) = false)
      by (apply P; simpl; auto).
    rewrite E, search_lit in F. discriminate.
  - intros a b E.
    assert (F : search no_flags (Lit "/*") (strip (upper sql)) = false)
      by (apply P; simpl; auto).
    rewrite E, search_lit in F. discriminate.
  - intros a m b Hm E.
    assert (F : search no_flags (Seq (Lit ";") (Seq (Star true Dot) (Lit "SELECT")))
                       (strip (upper sql)) = false)
      by (apply P; simpl; auto).
    rewrite E, search_gap in F by exact Hm. discriminate.
  - intros a m b Hm E.
    assert (F : search no_flags (Seq (Lit "UNION") (Seq (Star true Dot) (Lit "SELECT")))
                       (strip (upper sql)) = false)
      by (apply P; simpl; auto 6).
    rewrite E, search_gap in F by exact Hm. discriminate.
Qed.

Lemma accepted_query_shape_witness :
  is_safe_query "select region, sum(sales) from t group by region" = true /\
  (forall a b,
      strip (upper "select region, sum(sales) from t group by region")
      <> a ++ "DROP" ++ b).
Proof.
  split; [reflexivity|].
  apply (accepted_query_shape "select region, sum(sales) from t group by region");
    [reflexivity | simpl; auto].
Defined.

(** C4, as the spec words it, fails: SHOW, DESCRIBE and EXPLAIN statements
    pass the filter too. *)
Lemma show_statement_accepted :
  is_safe_query "SHOW TABLES" = true /\
  startswith_any (strip (upper "SHOW TABLES")) ["SELECT"; "WITH"] = false.
Proof. split; reflexivity. Qed.

(** C4 (amended): a query that passes the safety filter starts, after
    case normalization and trimming, with SELECT, WITH, SHOW, DESCRIBE or
    EXPLAIN, and contains none of the statement-altering keywords of the
    deny-list. *)
Theorem accepted_query_start (sql : string) :
  is_safe_query sql = true ->
  startswith_any (strip (upper sql))
                 ["SELECT"; "WITH"; "SHOW"; "DESCRIBE"; "EXPLAIN"] = true /\
  forall keyword,
    In keyword ["DROP"; "DELETE"; "UPDATE"; "INSERT"; "ALTER"; "CREATE";
                "TRUNCATE"; "GRANT"; "REVOKE"; "EXEC"; "EXECUTE"] ->
    contains keyword (strip (upper sql)) = false.
Proof.
  intros H. apply is_safe_query_true in H as (H1 & H2 & _). split.
  - exact H1.
  - intros k Hk. exact (existsb_false_In _ _ H2 k Hk).
Qed.

Lemma accepted_query_start_witness :
  is_safe_query "  with x as (select 1) select * from x " = true /\
  contains "UPDATE" (strip (upper "  with x as (select 1) select * from x ")) = false.
Proof.
  split; [reflexivity|].
  apply (accepted_query_start "  with x as (select 1) select * from x ");
    [reflexivity | simpl; auto].
Defined.

End SafetyFilter.

(** ** Chart-kind normalization *)

Module ChartKind.
Import PyStr ResponseParser.

Lemma mapping_targets_valid (kv : string * string) :
  In kv type_mappings -> In (snd kv) valid_types.
Proof.
  unfold type_mappings. simpl.
  intros H. repeat (destruct H as [<-|H]; [simpl; tauto|]). contradiction.
Qed.

(** Every answer of the normalization is one of the eight known kinds. *)
Lemma normalized_is_valid (s : string) :
  In (validate_visualization_type s) valid_types.
Proof.
  unfold validate_visualization_type.
  destruct (existsb (String.eqb (strip (lower s))) valid_types) eqn:E.
  - apply existsb_exists in E as (k & Hk & Heq).
    apply String.eqb_eq in Heq. now rewrite Heq.
  - destruct (find _ type_mappings) as [kv|] eqn:F.
    + apply find_some in F as [F _]. now apply mapping_targets_valid.
    + simpl; tauto.
Qed.

Lemma valid_is_fixed (k : string) :
  In k valid_types -> validate_visualization_type k = k.
Proof.
  unfold valid_types. simpl.
  intros H. repeat (destruct H as [<-|H]; [vm_compute; reflexivity|]). contradiction.
Qed.

(** C8: the normalization maps each of the eight known chart kinds to
    itself, so normalizing twice is normalizing once; "donut", "Donut" and
    " DONUT " all normalize to pie_chart. *)
Theorem normalization_idempotent :
  (forall k, In k ["bar_chart"; "line_chart"; "pie_chart"; "scatter_plot";
                   "histogram"; "box_plot"; "heatmap"; "table"] ->
             validate_visualization_type k = k) /\
  (forall s, validate_visualization_type (validate_visualization_type s)
             = validate_visualization_type s) /\
  validate_visualization_type "donut" = "pie_chart" /\
  validate_visualization_type "Donut" = "pie_chart" /\
  validate_visualization_type " DONUT " = "pie_chart".
Proof.
  split; [exact valid_is_fixed|].
  split; [|repeat split; vm_compute; reflexivity].
  intros s. apply valid_is_fixed, normalized_is_valid.
Qed.

Lemma normalization_idempotent_witness :
  validate_visualization_type "scatter_plot" = "scatter_plot".
Proof.
  apply (proj1 normalization_idempotent "scatter_plot"). simpl; tauto.
Defined.

End ChartKind.

(** ** Prompt builder *)

Module PromptFacts.
Import PyStr PromptManager.

(** C6: whatever the table name, the column list and the column-kind
    mapping are, the sample-query generator returns at most 8 suggestions,
    and at least 3 when there is at least one column. *)
Theorem sample_queries_bounds
        (table_name : string) (columns : list string)
        (data_types : option (list (string * string))) :
  List.length (get_sample_queries table_name columns data_types) <= 8 /\
  (1 <= List.length columns ->
   3 <= List.length (get_sample_queries table_name columns data_types)).
Proof.
  unfold get_sample_queries; cbv zeta.
  split.
  - apply firstn_le_length.
  - intros _. rewrite length_firstn.
    repeat match goal with
           | |- context [if ?b then _ else _] => destruct b
           end;
      repeat rewrite length_app; cbn [List.length]; lia.
Qed.

Lemma sample_queries_bounds_witness :
  3 <= List.length
         (get_sample_queries "orders" ["region"; "sales"; "day"]
            (Some [("region", "text"); ("sales", "numeric"); ("day", "datetime")])).
Proof.
  apply (proj2 (sample_queries_bounds "orders" ["region"; "sales"; "day"]
                  (Some [("region", "text"); ("sales", "numeric"); ("day", "datetime")]))).
  simpl; lia.
Defined.

(** C7, as the spec words it, fails: with one column and an empty
    column-kind mapping the sizes disagree, and the parameters are reported
    valid. *)
Lemma empty_mapping_is_valid :
  fst (validate_prompt_parameters "orders" ["region"] (Some [])) = true /\
  List.length (items (Some [])) <> List.length ["region"].
Proof. split; [reflexivity | discriminate]. Qed.

(** C7 (amended): the validation reports invalid exactly when the table
    name is empty, or the column list is empty, or it has more than 1000
    entries, or the column-kind mapping is not empty and its size differs
    from the size of the column list; an absent or empty mapping is not
    compared. *)
Theorem validate_prompt_parameters_invalid
        (table_name : string) (columns : list string)
        (data_types : option (list (string * string))) :
  fst (validate_prompt_parameters table_name columns data_types) = false <->
  (table_name = "" \/
   columns = [] \/
   1000 < List.length columns \/
   (items data_types <> [] /\
    List.length (items data_types) <> List.length columns)).
Proof.
  unfold validate_prompt_parameters.
  destruct table_name as [|c t]; simpl; [tauto|].
  destruct columns as [|x cols]; simpl; [tauto|].
  destruct (Nat.ltb_spec 1000 (S (List.length cols))) as [L|L]; simpl;
    [split; auto|].
  destruct (items data_types) as [|kv d]; simpl.
  - split; [discriminate|].
    intros [H|[H|[H|[H _]]]]; try discriminate; try lia. now elim H.
  - destruct (Nat.eqb_spec (List.length d) (List.length cols)) as [E|E]; simpl.
    + split; [discriminate|].
      intros [H|[H|[H|[_ H]]]]; try discriminate; try lia.
    + split; [|reflexivity]. intros _. right; right; right.
      split; [discriminate | lia].
Qed.

Lemma validate_prompt_parameters_invalid_witness :
  fst (validate_prompt_parameters "orders" ["region"; "sales"]
         (Some [("region", "text")])) = false.
Proof.
  apply (proj2 (validate_prompt_parameters_invalid "orders" ["region"; "sales"]
                  (Some [("region", "text")]))).
  right; right; right. simpl. split; [discriminate | lia].
Defined.

End PromptFacts.

(** ** Question validation *)

Module QuestionFacts.
Import PyStr OpenAIClient.

(** C10: the question validator rejects every question whose lower-cased
    text contains "hack", "exploit", "bypass" or "inject", also when its
    length is within the bounds; a question it accepts has a trimmed length
    of at least 5, a length of at most 500, and contains none of these
    substrings. *)
Theorem validate_query_generation_spec (question : string) :
  (forall keyword,
      In keyword ["hack"; "exploit"; "bypass"; "inject"] ->
      contains keyword (lower question) = true ->
      fst (validate_query_generation question) = false) /\
  (fst (validate_query_generation question) = true ->
   5 <= String.length (strip question) /\
   String.length question <= 500 /\
   forall keyword,
     In keyword ["hack"; "exploit"; "bypass"; "inject"] ->
     contains keyword (lower question) = false).
Proof.
  unfold validate_query_generation.
  destruct (negb (truthy question) || (String.length (strip question) <? 5)) eqn:E1;
    cbn [fst].
  - split; [reflexivity | discriminate].
  - apply orb_false_iff in E1 as [_ E1]. apply Nat.ltb_ge in E1.
    destruct (Nat.ltb_spec 500 (String.length question)) as [E2|E2]; cbn [fst].
    + split; [reflexivity | discriminate].
    + destruct (find _ problematic_keywords) as [k|] eqn:F; cbn [fst].
      * split; [reflexivity | discriminate].
      * split.
        -- intros k Hk Hc.
           pose proof (find_none _ _ F k Hk) as N. simpl in N. congruence.
        -- intros _. repeat split; try assumption.
           intros k Hk. exact (find_none _ _ F k Hk).
Qed.

Lemma validate_query_generation_spec_witness :
  fst (validate_query_generation "How do I hack the sales table?") = false /\
  5 <= String.length (strip "show me sales by region").
Proof.
  split.
  - apply (proj1 (validate_query_generation_spec "How do I hack the sales table?") "hack");
      [simpl; tauto | reflexivity].
  - apply (proj2 (validate_query_generation_spec "show me sales by region")).
    reflexivity.
Defined.

End QuestionFacts.

(** ** The query executor *)

Module ExecutorFacts.
Import PyStr Session Session.Notations Queries Outcomes Scenarios.

Lemma trace_bind {A B} (m : Run A) (k : A -> Run B) :
  trace (bind m k) = (trace m ++ trace (k (value m)))%list.
Proof. destruct m as [t a]; simpl. now destruct (k a). Qed.

Lemma value_bind {A B} (m : Run A) (k : A -> Run B) :
  value (bind m k) = value (k (value m)).
Proof. destruct m as [t a]; simpl. now destruct (k a). Qed.

Lemma run_eta {A} (m : Run A) : m = (trace m, value m).
Proof. now destruct m. Qed.

Lemma trace_emit (e : event) : trace (emit e) = [e].
Proof. reflexivity. Qed.

Lemma trace_ret {A} (a : A) : trace (ret a) = [].
Proof. reflexivity. Qed.

Lemma value_ret {A} (a : A) : value (ret a) = a.
Proof. reflexivity. Qed.

(** Unfolding of the traces of sequenced steps. *)
Ltac step_trace :=
  repeat (rewrite ?trace_bind, ?value_bind, ?trace_emit, ?trace_ret, ?value_ret;
          cbn [app]).

Lemma falsy_is_short (q : string) : truthy q = false -> String.length (strip q) < 5.
Proof. destruct q; [simpl; lia | discriminate]. Qed.

(** The four ways through [execute_sql_query]. *)
Lemma execute_sql_query_cases (w : World) (sql : string) (db : db_handle) :
  let q := clean_sql_query sql in
  (too_short sql /\
   execute_sql_query w sql db =
     ([st_error "Generated SQL query is too short or empty"], pd_DataFrame)) \/
  (~ too_short sql /\ rejected sql /\
   execute_sql_query w sql db =
     ([st_error "Query contains potentially unsafe operations"], pd_DataFrame)) \/
  (~ too_short sql /\ ~ rejected sql /\
   exists e, read_sql_query w q db = Raises e /\
     execute_sql_query w sql db =
       (backend_call q db :: trace (handle_query_error e q), pd_DataFrame)) \/
  (exists df, executed w sql db df /\
     execute_sql_query w sql db = ([backend_call q db], df)).
Proof.
  unfold too_short, rejected, executed, execute_sql_query; cbv zeta.
  set (q := clean_sql_query sql).
  destruct (truthy q) eqn:T; cbn [negb orb].
  - destruct (Nat.ltb_spec (String.length (strip q)) 5) as [L|L].
    + left. split; [exact L | reflexivity].
    + right. destruct (is_safe_query q) eqn:S; cbn [negb].
      * right. unfold execute_backend.
        destruct (read_sql_query w q db) as [df|e] eqn:R.
        -- right. exists df. simpl. split; [|reflexivity].
           repeat split; auto.
        -- left. split; [lia|]. split; [discriminate|].
           exists e. split; [reflexivity|].
           simpl. rewrite (run_eta (handle_query_error e q)) at 1.
           simpl. now rewrite app_nil_r.
      * left. split; [lia|]. split; reflexivity.
  - left. split; [now apply falsy_is_short | reflexivity].
Qed.

Lemma handle_query_error_reports (e q : string) :
  (exists label, In (st_error (label ++ e)) (trace (handle_query_error e q))) /\
  forall ev, In ev (trace (handle_query_error e q)) ->
             (exists msg, ev = st_error msg) \/ (exists msg, ev = st_info msg).
Proof.
  unfold handle_query_error.
  destruct (contains "syntax error" (lower e));
    [|destruct (contains "does not exist" (lower e));
      [|destruct (contains "permission" (lower e))]].
  1: split; [exists "SQL Syntax Error: "; left; reflexivity|].
  2: split; [exists "Database Error: "; left; reflexivity|].
  3: split; [exists "Permission Error: "; left; reflexivity|].
  4: split; [exists "Database Error: "; left; reflexivity|].
  all: intros ev H; simpl in H;
    repeat (destruct H as [<-|H]; [eauto|]); contradiction.
Qed.

(** Every call of the backend carries the cleaned text, and the filter has
    accepted it. *)
Lemma backend_calls_are_safe (w : World) (sql : string) (db : db_handle)
      (s : string) (d : db_handle) :
  In (backend_call s d) (trace (execute_sql_query w sql db)) ->
  s = clean_sql_query sql /\ d = db /\ is_safe_query s = true.
Proof.
  destruct (execute_sql_query_cases w sql db)
    as [[_ E]|[(_ & _ & E)|[(_ & R & e & _ & E)|(df & (_ & S & _) & E)]]];
    rewrite E; simpl.
  - intros [H|[]]; discriminate.
  - intros [H|[]]; discriminate.
  - intros [H|H].
    + inversion H; subst. repeat split; auto.
      unfold rejected in R. now destruct (is_safe_query (clean_sql_query sql)).
    + apply (proj2 (handle_query_error_reports e _)) in H as [[m H]|[m H]];
        discriminate.
  - intros [H|[]]. inversion H; subst. auto.
Qed.


Lemma failed_value (w : World) (sql : string) (db : db_handle) :
  failed w sql db -> value (execute_sql_query w sql db) = pd_DataFrame.
Proof.
  intros F.
  destruct (execute_sql_query_cases w sql db)
    as [[_ E]|[(_ & _ & E)|[(_ & _ & e & _ & E)|(df & (L & S & R) & E)]]];
    rewrite E; try reflexivity.
  exfalso. destruct F as [F|[F|[e F]]].
  - unfold too_short in F. lia.
  - unfold rejected in F. congruence.
  - congruence.
Qed.

Lemma no_row_is_empty (df : DataFrame) : rows df = [] -> empty df = true.
Proof. unfold empty. intros ->. simpl. apply orb_true_r. Qed.

(** C9, as worded, fails: the frame of a failure is not the frame of a run
    that executed and matched no row.  A failure hands back [pd.DataFrame()],
    which has no columns; a query that matched no row hands back the
    backend's frame, with the columns of the query. *)
Lemma failure_differs_from_no_rows :
  failed down "SELECT name FROM users" (SqlitePath "app.db") /\
  matched_no_row quiet "SELECT name FROM users" (SqlitePath "app.db") /\
  value (execute_sql_query down "SELECT name FROM users" (SqlitePath "app.db"))
  <> value (execute_sql_query quiet "SELECT name FROM users" (SqlitePath "app.db")).
Proof.
  split; [|split].
  - right; right. exists "connection refused". reflexivity.
  - exists {| columns := ["name"]; rows := [] |}. split; [|reflexivity].
    unfold executed. split; [vm_compute; lia|]. split; vm_compute; reflexivity.
  - intros H. vm_compute in H. discriminate.
Qed.

(** C9 (amended): [execute_sql_query] is a total function that hands a
    frame to its caller on every input (the handler of its [try] block
    swallows every exception); when the cleaned query is shorter than 5
    characters, when the safety filter rejects it, and when the backend
    raises, the frame is [pd.DataFrame()], which has no rows and is [empty],
    as is the frame of a run that executed and matched no row: the two
    cannot be told apart by their rows or by the caller's test [df.empty]
    (they can by their column labels). *)
Theorem failures_look_like_no_rows (w : World) (sql : string) (db : db_handle) :
  failed w sql db ->
  value (execute_sql_query w sql db) = pd_DataFrame /\
  rows (value (execute_sql_query w sql db)) = [] /\
  empty (value (execute_sql_query w sql db)) = true /\
  forall w' sql' db',
    matched_no_row w' sql' db' ->
    rows (value (execute_sql_query w' sql' db'))
      = rows (value (execute_sql_query w sql db)) /\
    empty (value (execute_sql_query w' sql' db'))
      = empty (value (execute_sql_query w sql db)).
Proof.
  intros F. rewrite (failed_value w sql db F).
  repeat split; try reflexivity;
    destruct H as (df & X & Z);
    destruct (execute_sql_query_cases w' sql' db')
      as [[S _]|[(_ & R & _)|[(_ & _ & e & Re & _)|(df' & (_ & _ & R') & E)]]];
    destruct X as (L & Sf & Rd); unfold too_short, rejected in *;
    try lia; try congruence;
    rewrite E; simpl; rewrite R' in Rd; inversion Rd; subst;
    [exact Z | now apply no_row_is_empty].
Qed.

Lemma failures_look_like_no_rows_witness :
  value (execute_sql_query down "SELECT region FROM t" (SqlitePath "data.db"))
  = pd_DataFrame.
Proof.
  apply (failures_look_like_no_rows down "SELECT region FROM t" (SqlitePath "data.db")).
  right; right. exists "connection refused". reflexivity.
Defined.

End ExecutorFacts.

(** ** The pipeline of the custom-query page *)

Module PipelineFacts.
Import PyStr Session Session.Notations.
Import Queries ResponseParser CustomQuery Outcomes Scenarios ExecutorFacts.

Section Run.
Variable w : World.
Variable st : session_state.

Lemma show_fallback_suggestions_events (ev : event) :
  In ev (trace (show_fallback_suggestions st)) ->
  (forall s d, ev <> backend_call s d) /\
  (forall q p t n, ev <> model_call q p t n).
Proof.
  unfold show_fallback_suggestions. step_trace. intros H.
  repeat (destruct H as [<-|H]; [split; discriminate|]). contradiction.
Qed.

(** The fallback starts with its warning and the second model call. *)
Lemma handle_empty_results_starts (question prompt table_info : string) :
  exists rest,
    trace (handle_empty_results w st question prompt table_info) =
      st_warning "No results found. Let me try a different approach..."
      :: model_call question prompt table_info 2 :: rest.
Proof.
  unfold handle_empty_results, generate_sql_from_question.
  step_trace. eauto.
Qed.

Lemma handle_empty_results_backend (question prompt table_info : string)
      (s : string) (d : db_handle) :
  In (backend_call s d) (trace (handle_empty_results w st question prompt table_info)) ->
  is_safe_query s = true.
Proof.
  unfold handle_empty_results, generate_sql_from_question.
  step_trace.
  intros [H|[H|H]]; try discriminate. revert H.
  destruct (truthy_response _) as [r|];
    [|intros H; now apply show_fallback_suggestions_events in H as [H _]; elim (H s d)].
  destruct (parse_openai_response r) as [[[fsql fviz] freason] fins].
  destruct (truthy fsql);
    [|intros H; now apply show_fallback_suggestions_events in H as [H _]; elim (H s d)].
  step_trace. intros [H|[H|H]]; try discriminate.
  apply in_app_or in H as [H|H].
  - now apply backend_calls_are_safe in H.
  - revert H. destruct (empty _); cbn [negb].
    + intros H. now apply show_fallback_suggestions_events in H as [H _]; elim (H s d).
    + step_trace. destruct (truthy fins); simpl; intuition discriminate.
Qed.

(** The trace of [process_ai_response] once a query has been extracted. *)
Lemma process_ai_response_trace
      (question response prompt table_info sql viz reason ins : string) :
  parse_openai_response response = (sql, viz, reason, ins) ->
  truthy sql = true ->
  trace (process_ai_response w st question response prompt table_info) =
    (st_subheader "Generated SQL Query" :: st_code sql ::
     trace (execute_sql_query w sql (db_engine st)) ++
     (if empty (value (execute_sql_query w sql (db_engine st)))
      then trace (handle_empty_results w st question prompt table_info)
      else show_results question sql viz reason ins
                        (value (execute_sql_query w sql (db_engine st)))))%list.
Proof.
  intros P T. unfold process_ai_response. rewrite P, T. cbn [negb].
  step_trace. do 3 f_equal.
  destruct (empty _); cbn [negb]; [reflexivity|].
  step_trace. unfold show_results. destruct (truthy ins); reflexivity.
Qed.

Lemma show_results_events
      (question sql viz reason ins : string) (df : DataFrame) (ev : event) :
  In ev (show_results question sql viz reason ins df) ->
  (forall s d, ev <> backend_call s d) /\
  (forall q p t n, ev <> model_call q p t n).
Proof.
  unfold show_results. destruct (truthy ins); simpl; intros H;
    repeat (destruct H as [<-|H]; [split; discriminate|]); contradiction.
Qed.

(** The safety filter gates every execution of a run. *)
Lemma process_ai_response_backend
      (question response prompt table_info : string)
      (s : string) (d : db_handle) :
  In (backend_call s d)
     (trace (process_ai_response w st question response prompt table_info)) ->
  is_safe_query s = true.
Proof.
  destruct (parse_openai_response response) as [[[sql viz] reason] ins] eqn:P.
  destruct (truthy sql) eqn:T.
  - rewrite (process_ai_response_trace _ _ _ _ _ _ _ _ P T).
    intros [H|[H|H]]; try discriminate.
    apply in_app_or in H as [H|H].
    + now apply backend_calls_are_safe in H.
    + destruct (empty _).
      * now apply handle_empty_results_backend in H.
      * now apply show_results_events in H as [H _]; elim (H s d).
  - unfold process_ai_response. rewrite P, T. simpl.
    intros [H|[]]; discriminate.
Qed.

(** A query that is too short or rejected never reaches the backend. *)
Lemma unexecuted (sql : string) :
  too_short sql \/ rejected sql ->
  exists msg,
    execute_sql_query w sql (db_engine st) = ([st_error msg], pd_DataFrame).
Proof.
  intros F.
  destruct (execute_sql_query_cases w sql (db_engine st))
    as [[_ E]|[(_ & _ & E)|[(S & R & _)|(df & (L & Sf & _) & _)]]]; eauto;
    exfalso; unfold too_short, rejected in *; destruct F; try lia; congruence.
Qed.

(** C1 (amended): the backend is never invoked for a query the safety
    filter rejects: every backend call of a run carries a text the filter
    has accepted.  When the filter rejects the cleaned text of the primary
    query, the executor calls no backend, reports an error and returns the
    empty frame; the page has no state of its own for this outcome, handles
    it as an empty result and goes on to the fallback attempt. *)
Theorem rejected_query_not_executed (question response prompt table_info : string) :
  (forall s d,
      In (backend_call s d)
         (trace (process_ai_response w st question response prompt table_info)) ->
      is_safe_query s = true) /\
  (forall sql viz reason ins,
      parse_openai_response response = (sql, viz, reason, ins) ->
      truthy sql = true ->
      rejected sql ->
      value (execute_sql_query w sql (db_engine st)) = pd_DataFrame /\
      (forall s d,
          ~ In (backend_call s d) (trace (execute_sql_query w sql (db_engine st)))) /\
      exists msg rest,
        trace (process_ai_response w st question response prompt table_info) =
          st_subheader "Generated SQL Query" :: st_code sql :: st_error msg ::
          st_warning "No results found. Let me try a different approach..." ::
          model_call question prompt table_info 2 :: rest).
Proof.
  split; [apply process_ai_response_backend|].
  intros sql viz reason ins P T R.
  destruct (unexecuted sql (or_intror R)) as [msg E].
  rewrite (process_ai_response_trace _ _ _ _ _ _ _ _ P T), E.
  split; [reflexivity|]. split.
  - simpl. intros s d [H|[]]. discriminate.
  - destruct (handle_empty_results_starts question prompt table_info) as [rest ->].
    exists msg, rest. reflexivity.
Qed.


End Run.

(** C1, as the spec words it, fails: the first generated query is rejected
    by the safety filter and is not executed, but the page does not stop
    there: it issues the exploratory prompt, executes the second query and
    shows its result. *)
Lemma rejected_query_reaches_fallback :
  is_safe_query "DROP TABLE users" = false /\
  trace (handle_query_submission scripted st0 "show me the users" "PROMPT" "INFO") =
    [model_call "show me the users" "PROMPT" "INFO" 1;
     st_subheader "Generated SQL Query";
     st_code "DROP TABLE users";
     st_error "Query contains potentially unsafe operations";
     st_warning "No results found. Let me try a different approach...";
     model_call "show me the users" "PROMPT" "INFO" 2;
     st_subheader "Alternative Query Approach";
     st_code "SELECT name FROM users";
     backend_call "SELECT name FROM users" (SqlitePath "app.db");
     st_subheader "Exploratory Results";
     create_visualization one_row "table" "lists the users" "show me the users";
     render_info_box "Alternative Insights" "one user" "info"].
Proof. split; vm_compute; reflexivity. Qed.

Lemma rejected_query_not_executed_witness :
  value (execute_sql_query scripted "DROP TABLE users" (db_engine st0)) = pd_DataFrame.
Proof.
  apply (proj2 (rejected_query_not_executed scripted st0 "show me the users"
                  ("SQL_QUERY: DROP TABLE users" ++ nl ++ "VIZ_TYPE: table" ++ nl ++
                   "VIZ_REASON: none" ++ nl ++ "INSIGHTS: none") "PROMPT" "INFO")
               "DROP TABLE users" "table" "none" "none");
    vm_compute; reflexivity.
Defined.



End PipelineFacts.

(** ** The response parser *)

Module ParserFacts.
Import PyStr Re ResponseParser Queries Canonical Observations PyStrFacts ReFacts.





Lemma replace_from_skip (old new y x : string) :
  replace_from old new (String.length y) (y ++ x) = replace_from old new 0 x.
Proof. induction y as [|a y IH]; [reflexivity | exact IH]. Qed.



Section Lines.
Variables q v r i : string.
Hypothesis own_q : contains "SQL_QUERY:" q = false.
Hypothesis own_v : contains "VIZ_TYPE:" v = false.
Hypothesis own_r : contains "VIZ_REASON:" r = false.
Hypothesis own_i : contains "INSIGHTS:" i = false.





End Lines.



(** An occurrence at the head of the text is replaced, and the replacement
    goes on behind it. *)
Lemma replace_head (c : ascii) (old new r : string) :
  replace (String c old ++ r) (String c old) new = new ++ replace r (String c old) new.
Proof.
  unfold replace. cbn [append replace_from].
  change (String c (old ++ r)) with (String c old ++ r).
  rewrite prefix_app. cbn [String.length Nat.sub].
  now rewrite Nat.sub_0_r, replace_from_skip.
Qed.

Lemma replace_step (c : ascii) (s old new : string) :
  prefix old (String c s) = false ->
  replace (String c s) old new = String c (replace s old new).
Proof. intros H. unfold replace. cbn [replace_from]. now rewrite H. Qed.











(** What [clean_extracted_sql] does to a text that already reads as SQL. *)
Lemma clean_extracted_sql_of_sql (sql : string) :
  truthy sql = true ->
  startswith_any
    (strip (upper (strip (rstrip_semicolon (collapse_ws (strip_fences sql))))))
    ["SELECT"; "WITH"; "SHOW"] = true ->
  clean_extracted_sql sql = strip (rstrip_semicolon (collapse_ws (strip_fences sql))).
Proof.
  intros T S. unfold clean_extracted_sql. rewrite T. cbn [negb]. now rewrite S.
Qed.

End ParserFacts.

(** ** White space in cleaned texts *)

Module WhitespaceFacts.
Import PyStr Observations PyStrFacts.

Lemma token_cons (c : ascii) (w : string) :
  isspace c = false -> (w = "" \/ is_token w = true) -> is_token (String c w) = true.
Proof.
  unfold is_token. intros Hc [->|H]; simpl; rewrite Hc; [reflexivity|].
  apply andb_true_iff in H as [_ H]. exact H.
Qed.

Lemma split_ws_tokens (s : string) :
  Forall (fun w => is_token w = true) (split_ws s).
Proof.
  induction s as [|c s IH]; [constructor|].
  cbn [split_ws]. destruct (isspace c) eqn:Hc; [exact IH|].
  destruct s as [|d s']; [constructor; [now apply token_cons; auto|constructor]|].
  destruct (isspace d) eqn:Hd.
  - constructor; [apply token_cons; auto | exact IH].
  - destruct (split_ws (String d s')) as [|h t]; [constructor; [apply token_cons; auto|constructor]|].
    inversion IH; subst. constructor; [apply token_cons; auto | assumption].
Qed.

Lemma token_first (w : string) :
  is_token w = true ->
  exists c w', w = String c w' /\ isspace c = false /\ (w' = "" \/ is_token w' = true).
Proof.
  unfold is_token. destruct w as [|c w']; [discriminate|]. simpl.
  intros H. apply andb_true_iff in H as [Hc H]. apply negb_true_iff in Hc.
  exists c, w'. repeat split; auto.
  destruct w'; [now left | right; exact H].
Qed.

Lemma split_ws_blank (t : string) : split_ws (String " " t) = split_ws t.
Proof. reflexivity. Qed.

Lemma split_ws_token_then (w t : string) :
  is_token w = true -> split_ws (w ++ String " " t) = w :: split_ws t.
Proof.
  induction w as [|c w IH]; [discriminate|]. intros H.
  apply token_first in H as (c' & w' & E & Hc & Hw). inversion E; subst c' w'.
  cbn [append split_ws]. rewrite Hc.
  destruct Hw as [->|Hw]; [reflexivity|].
  destruct (token_first _ Hw) as (d & w'' & -> & Hd & _).
  cbn [append]. rewrite Hd.
  change (String d (w'' ++ String " " t)) with (String d w'' ++ String " " t).
  now rewrite (IH Hw).
Qed.

Lemma split_ws_token (w : string) : is_token w = true -> split_ws w = [w].
Proof.
  induction w as [|c w IH]; [discriminate|]. intros H.
  apply token_first in H as (c' & w' & E & Hc & Hw). inversion E; subst c' w'.
  cbn [split_ws]. rewrite Hc.
  destruct Hw as [->|Hw]; [reflexivity|].
  destruct (token_first _ Hw) as (d & w'' & -> & Hd & _).
  rewrite Hd. now rewrite (IH Hw).
Qed.

(** Splitting undoes joining with single blanks. *)
Lemma split_ws_join (ws : list string) :
  Forall (fun w => is_token w = true) ws -> split_ws (join " " ws) = ws.
Proof.
  unfold join. induction ws as [|w ws IH]; intros H; [reflexivity|].
  inversion H as [|? ? Hw Hws]; subst.
  destruct ws as [|w2 ws]; [now apply split_ws_token|].
  cbn [String.concat]. change (" " ++ ?x) with (String " " x).
  rewrite (split_ws_token_then _ _ Hw). f_equal. exact (IH Hws).
Qed.

Lemma collapse_ws_idempotent (s : string) :
  collapse_ws (collapse_ws s) = collapse_ws s.
Proof.
  unfold collapse_ws. rewrite split_ws_join by apply split_ws_tokens. reflexivity.
Qed.

Lemma rstrip_by_keeps (p : ascii -> bool) (s : string) :
  match last_char s with Some c => p c = false | None => True end ->
  rstrip_by p s = s.
Proof.
  induction s as [|c s IH]; [reflexivity|].
  cbn [last_char rstrip_by]. destruct s as [|d s'].
  - simpl. now intros ->.
  - intros H. rewrite (IH H). reflexivity.
Qed.

Lemma lstrip_by_keeps (p : ascii -> bool) (s : string) :
  match first_char s with Some c => p c = false | None => True end ->
  lstrip_by p s = s.
Proof. destruct s as [|c s]; [reflexivity|]. simpl. now intros ->. Qed.

Lemma last_char_app (a b : string) :
  b <> "" -> last_char (a ++ b) = last_char b.
Proof.
  intros Hb. induction a as [|c a IH]; [reflexivity|].
  cbn [append last_char]. rewrite IH.
  destruct (a ++ b) eqn:E; [|reflexivity].
  destruct a; [simpl in E; congruence | discriminate].
Qed.

Lemma token_last (w : string) :
  is_token w = true -> exists c, last_char w = Some c /\ isspace c = false.
Proof.
  induction w as [|c w IH]; [discriminate|]. intros H.
  apply token_first in H as (c' & w' & E & Hc & Hw). inversion E; subst c' w'.
  destruct Hw as [->|Hw]; [exists c; auto|].
  destruct (IH Hw) as (d & Hl & Hd). exists d. split; [|exact Hd].
  destruct w; [discriminate | exact Hl].
Qed.

(** The shape of a text whose words are joined by single blanks. *)
Lemma join_tokens_shape (ws : list string) :
  Forall (fun w => is_token w = true) ws ->
  match first_char (join " " ws) with Some c => isspace c = false | None => True end /\
  match last_char (join " " ws) with Some c => isspace c = false | None => True end /\
  only_blanks (join " " ws) = true /\
  contains "  " (join " " ws) = false.
Proof.
  unfold join. induction ws as [|w ws IH]; intros H; [repeat split; reflexivity|].
  inversion H as [|? ? Hw Hws]; subst.
  assert (OB : only_blanks w = true).
  { unfold is_token in Hw. apply andb_true_iff in Hw as [_ Hw]. unfold only_blanks.
    clear -Hw. induction w as [|c w IHw]; [reflexivity|].
    simpl in *. apply andb_true_iff in Hw as [-> Hw]. simpl. auto. }
  assert (NB : contains "  " w = false).
  { unfold is_token in Hw. apply andb_true_iff in Hw as [_ Hw].
    clear -Hw. induction w as [|c w IHw]; [reflexivity|].
    simpl in Hw. apply andb_true_iff in Hw as [Hc Hw]. apply negb_true_iff in Hc.
    cbn [contains prefix]. rewrite (IHw Hw), orb_false_r.
    destruct (ascii_dec " " c) as [<-|_]; [discriminate Hc | reflexivity]. }
  destruct ws as [|w2 ws].
  - cbn [String.concat].
    destruct (token_first _ Hw) as (c & w' & -> & Hc & _).
    destruct (token_last _ Hw) as (d & -> & Hd). auto.
  - destruct (IH Hws) as (F & L & O & N).
    change (String.concat " " (w :: w2 :: ws))
      with (w ++ String " " (String.concat " " (w2 :: ws))).
    remember (String.concat " " (w2 :: ws)) as r eqn:Er.
    assert (Hr : exists c r', r = String c r' /\ isspace c = false).
    { inversion Hws as [|? ? Hw2 _]; subst.
      destruct (token_first _ Hw2) as (c & w' & -> & Hc & _).
      exists c. destruct ws; cbn [String.concat append]; eauto. }
    destruct Hr as (c & r' & Hr & Hc).
    destruct (token_first _ Hw) as (c0 & w' & -> & Hc0 & _).
    split; [exact Hc0|]. split; [|split].
    + rewrite last_char_app by discriminate.
      rewrite Hr in L |- *. exact L.
    + clear -OB O. revert OB. generalize (String c0 w'). intros w OB.
      induction w as [|x w IHw]; [exact O|].
      unfold only_blanks in *. simpl in *.
      apply andb_true_iff in OB as [-> OB]. simpl. auto.
    + clear -NB N Hr Hc Hw. revert NB Hw. generalize (String c0 w'). intros w NB Hw.
      induction w as [|x w IHw]; [discriminate|].
      apply token_first in Hw as (x' & w'' & E & Hx & Hw). inversion E; subst x' w''.
      cbn [append contains]. apply orb_false_iff. split.
      * cbn [prefix]. destruct (ascii_dec " " x) as [<-|_]; [discriminate Hx | reflexivity].
      * destruct Hw as [->|Hw].
        -- cbn [append contains]. rewrite N, orb_false_r. rewrite Hr. cbn [prefix].
           destruct (ascii_dec " " " ") as [_|ne]; [|now elim ne].
           destruct (ascii_dec " " c) as [<-|_]; [discriminate Hc | reflexivity].
        -- apply IHw; [|exact Hw].
           cbn [contains] in NB. now apply orb_false_iff in NB as [_ NB].
Qed.

(** A text with collapsed white space: its words are separated by single
    blanks, and nothing surrounds them. *)
Lemma collapse_ws_shape (s : string) :
  strip (collapse_ws s) = collapse_ws s /\
  only_blanks (collapse_ws s) = true /\
  contains "  " (collapse_ws s) = false.
Proof.
  destruct (join_tokens_shape _ (split_ws_tokens s)) as (F & L & O & N).
  fold (collapse_ws s) in *. split; [|auto].
  unfold strip. rewrite (lstrip_by_keeps _ _ F). now apply rstrip_by_keeps.
Qed.

End WhitespaceFacts.

(** ** Cleaned queries and the validators around them *)

Module CleaningFacts.
Import PyStr Session Queries QueryValidation Validators Outcomes Observations.
Import PyStrFacts WhitespaceFacts ExecutorFacts.

(** A run that only shows messages calls neither the model nor the backend. *)
Lemma messages_call_nothing (t : list event) :
  (forall ev, In ev t -> (exists msg, ev = st_error msg) \/ (exists msg, ev = st_info msg)) ->
  executions t = [] /\ attempts t = [].
Proof.
  induction t as [|ev t IH]; intros H; [split; reflexivity|].
  destruct IH as [IH1 IH2]; [intros ev' Hev'; apply H; now right|].
  destruct (H ev (or_introl eq_refl)) as [[m ->]|[m ->]]; cbn [executions attempts]; auto.
Qed.

(** The cleaned text is a text with collapsed white space, or empty. *)
Lemma clean_sql_query_collapsed (sql : string) :
  clean_sql_query sql = "" \/ exists t, clean_sql_query sql = collapse_ws t.
Proof.
  unfold clean_sql_query. destruct (truthy sql); cbn [negb]; [|now left].
  right. eexists. reflexivity.
Qed.

Lemma clean_sql_query_stripped (sql : string) :
  strip (clean_sql_query sql) = clean_sql_query sql.
Proof.
  destruct (clean_sql_query_collapsed sql) as [-> | [t ->]]; [reflexivity|].
  apply collapse_ws_shape.
Qed.

(** X1: whatever text [clean_sql_query] is given, its result is on one
    line and single-spaced: it has no white space at either end, no white
    space other than blanks, and no two blanks in a row; collapsing its
    white space again changes nothing. *)
Theorem clean_sql_query_single_spaced (sql : string) :
  strip (clean_sql_query sql) = clean_sql_query sql /\
  collapse_ws (clean_sql_query sql) = clean_sql_query sql /\
  only_blanks (clean_sql_query sql) = true /\
  contains "  " (clean_sql_query sql) = false.
Proof.
  destruct (clean_sql_query_collapsed sql) as [-> | [t ->]];
    [repeat split; reflexivity|].
  destruct (collapse_ws_shape t) as (S & O & N).
  repeat split; auto. apply collapse_ws_idempotent.
Qed.

(** X2: a query that [validate_sql_query] accepts is one the executor sends
    to the backend: its cleaned text is the first and only thing the
    executor does before the backend answers, and the frame handed back is
    the backend's (or the empty frame when the backend raises).  The
    accepted text starts with SELECT or WITH and has at most 10000
    characters. *)
Theorem valid_query_is_executed (sql : string) :
  fst (validate_sql_query sql) = true ->
  startswith_any (upper (clean_sql_query sql)) ["SELECT"; "WITH"] = true /\
  String.length (clean_sql_query sql) <= 10000 /\
  forall (w : World) (db : db_handle),
    executions (trace (execute_sql_query w sql db)) = [clean_sql_query sql] /\
    (exists rest,
        trace (execute_sql_query w sql db) =
          backend_call (clean_sql_query sql) db :: rest) /\
    value (execute_sql_query w sql db) =
      match read_sql_query w (clean_sql_query sql) db with
      | Returns df => df
      | Raises _ => pd_DataFrame
      end.
Proof.
  unfold validate_sql_query.
  destruct (negb (truthy sql) || negb (truthy (strip sql))); [discriminate|].
  cbv zeta.
  destruct (Nat.ltb_spec (String.length (clean_sql_query sql)) 5) as [|L5]; [discriminate|].
  destruct (Nat.ltb_spec 10000 (String.length (clean_sql_query sql))) as [|L]; [discriminate|].
  destruct (is_safe_query (clean_sql_query sql)) eqn:S; [|discriminate].
  destruct (startswith_any (upper (clean_sql_query sql)) ["SELECT"; "WITH"]) eqn:P;
    [|discriminate].
  intros _. split; [reflexivity|]. split; [exact L|].
  intros w db.
  assert (NS : ~ too_short sql).
  { unfold too_short.
    rewrite (clean_sql_query_stripped sql). lia. }
  destruct (execute_sql_query_cases w sql db)
    as [[S' _]|[(_ & R & _)|[(_ & _ & e & Re & E)|(df & (_ & _ & Rd) & E)]]].
  - contradiction.
  - unfold rejected in R. congruence.
  - rewrite E, Re. cbn [trace value fst snd executions]. split; [|split; eauto].
    f_equal. apply messages_call_nothing.
    apply (handle_query_error_reports e (clean_sql_query sql)).
  - rewrite E, Rd. cbn [trace value fst snd executions]. split; [|split; eauto].
    reflexivity.
Qed.

Lemma valid_query_is_executed_witness :
  executions (trace (execute_sql_query Scenarios.scripted
                       "  select name from users; " (SqlitePath "app.db")))
  = [clean_sql_query "  select name from users; "].
Proof.
  assert (V : fst (validate_sql_query "  select name from users; ") = true)
    by (vm_compute; reflexivity).
  exact (proj1 (proj2 (proj2 (valid_query_is_executed _ V))
                  Scenarios.scripted (SqlitePath "app.db"))).
Defined.

Lemma all_chars_split_ws (q : ascii -> bool) (s : string) :
  all_chars q s = true -> Forall (fun w => all_chars q w = true) (split_ws s).
Proof.
  induction s as [|c s IH]; [constructor|].
  cbn [all_chars]. intros H. apply andb_true_iff in H as [Hc Hs].
  specialize (IH Hs). cbn [split_ws]. destruct (isspace c); [exact IH|].
  destruct s as [|d s']; [constructor; [simpl; now rewrite Hc|constructor]|].
  destruct (isspace d).
  - constructor; [simpl; now rewrite Hc | exact IH].
  - destruct (split_ws (String d s')) as [|h t];
      [constructor; [simpl; now rewrite Hc|constructor]|].
    inversion IH; subst. constructor; [|assumption].
    cbn [all_chars]. rewrite Hc. assumption.
Qed.

Lemma all_chars_app (q : ascii -> bool) (a b : string) :
  all_chars q a = true -> all_chars q b = true -> all_chars q (a ++ b) = true.
Proof.
  induction a as [|c a IH]; [auto|]. cbn [append all_chars].
  intros H Hb. apply andb_true_iff in H as [-> Ha]. simpl. auto.
Qed.

Lemma all_chars_join (q : ascii -> bool) (ws : list string) :
  q " "%char = true ->
  Forall (fun w => all_chars q w = true) ws -> all_chars q (join " " ws) = true.
Proof.
  intros Hq. unfold join. induction ws as [|w ws IH]; intros H; [reflexivity|].
  inversion H as [|? ? Hw Hws]; subst.
  destruct ws as [|w2 ws]; [exact Hw|].
  change (String.concat " " (w :: w2 :: ws))
    with (w ++ String " " (String.concat " " (w2 :: ws))).
  apply all_chars_app; [exact Hw|]. cbn [all_chars]. rewrite Hq. exact (IH Hws).
Qed.

(** Collapsing white space brings in no character but the blank. *)
Lemma all_chars_collapse_ws (q : ascii -> bool) (s : string) :
  q " "%char = true -> all_chars q s = true -> all_chars q (collapse_ws s) = true.
Proof.
  intros Hq H. apply all_chars_join; [exact Hq|]. now apply all_chars_split_ws.
Qed.

Lemma remove_chars_clean (cls : ascii -> bool) (s : string) :
  all_chars (fun c => negb (cls c)) (remove_chars cls s) = true.
Proof.
  induction s as [|c s IH]; [reflexivity|]. cbn [remove_chars].
  destruct (cls c) eqn:E; [exact IH|]. cbn [all_chars]. now rewrite E.
Qed.

Lemma remove_chars_keeps (cls : ascii -> bool) (s : string) :
  all_chars (fun c => negb (cls c)) s = true -> remove_chars cls s = s.
Proof.
  induction s as [|c s IH]; [reflexivity|]. cbn [all_chars remove_chars].
  intros H. apply andb_true_iff in H as [Hc Hs]. apply negb_true_iff in Hc.
  now rewrite Hc, (IH Hs).
Qed.

(** X3: [sanitize_input] is idempotent, and its result holds none of the
    characters [<], [>], double quote and apostrophe, no white space other
    than single blanks between words, and none at its ends. *)
Theorem sanitize_input_idempotent (input_str : string) :
  sanitize_input (sanitize_input input_str) = sanitize_input input_str /\
  all_chars (fun c => negb (is_markup c)) (sanitize_input input_str) = true /\
  strip (sanitize_input input_str) = sanitize_input input_str /\
  only_blanks (sanitize_input input_str) = true /\
  contains "  " (sanitize_input input_str) = false.
Proof.
  assert (K : forall t,
             all_chars (fun c => negb (is_markup c)) t = true ->
             sanitize_input (collapse_ws t) = collapse_ws t /\
             all_chars (fun c => negb (is_markup c)) (collapse_ws t) = true).
  { intros t Ht.
    assert (C : all_chars (fun c => negb (is_markup c)) (collapse_ws t) = true)
      by (apply all_chars_collapse_ws; [reflexivity | exact Ht]).
    split; [|exact C]. unfold sanitize_input.
    destruct (truthy (collapse_ws t)) eqn:T; cbn [negb].
    - rewrite (remove_chars_keeps _ _ C), collapse_ws_idempotent.
      apply (collapse_ws_shape t).
    - now destruct (collapse_ws t). }
  destruct (truthy input_str) eqn:T.
  - assert (E : sanitize_input input_str
                = collapse_ws (remove_chars is_markup input_str)).
    { unfold sanitize_input. rewrite T. cbn [negb]. apply collapse_ws_shape. }
    rewrite E.
    destruct (collapse_ws_shape (remove_chars is_markup input_str)) as (S & O & N).
    destruct (K _ (remove_chars_clean is_markup input_str)) as [I C].
    repeat split; auto.
  - assert (E : sanitize_input input_str = "")
      by (unfold sanitize_input; rewrite T; reflexivity).
    rewrite E. repeat split; reflexivity.
Qed.

End CleaningFacts.

(** ** Calls and displays of a whole submission *)

Module LadderFacts.
Import PyStr Session Session.Notations.
Import Queries ResponseParser PromptManager CustomQuery Outcomes Observations Fallback.
Import ExecutorFacts PipelineFacts CleaningFacts.

Lemma attempts_app (a b : list event) :
  attempts (a ++ b) = (attempts a ++ attempts b)%list.
Proof.
  induction a as [|e a IH]; [reflexivity|].
  destruct e; cbn [app attempts]; rewrite ?IH; reflexivity.
Qed.

Lemma executions_app (a b : list event) :
  executions (a ++ b) = (executions a ++ executions b)%list.
Proof.
  induction a as [|e a IH]; [reflexivity|].
  destruct e; cbn [app executions]; rewrite ?IH; reflexivity.
Qed.

Section Run.
Variable w : World.
Variable st : session_state.

(** What one call of the executor contributes to a run. *)
Lemma executor_observed (sql : string) :
  attempts (trace (execute_sql_query w sql (db_engine st))) = [] /\
  (executions (trace (execute_sql_query w sql (db_engine st))) = [] \/
   (executions (trace (execute_sql_query w sql (db_engine st))) = [clean_sql_query sql] /\
    is_safe_query (clean_sql_query sql) = true)) /\
  (empty (value (execute_sql_query w sql (db_engine st))) = false ->
   executed w sql (db_engine st) (value (execute_sql_query w sql (db_engine st)))).
Proof.
  destruct (execute_sql_query_cases w sql (db_engine st))
    as [[_ E]|[(_ & _ & E)|[(_ & R & e & _ & E)|(df & X & E)]]];
    rewrite E; cbn [trace value fst snd attempts executions].
  - split; [reflexivity|split; [auto|intros Hem; vm_compute in Hem; discriminate]].
  - split; [reflexivity|split; [auto|intros Hem; vm_compute in Hem; discriminate]].
  - destruct (messages_call_nothing _
                (proj2 (handle_query_error_reports e (clean_sql_query sql)))) as [-> ->].
    split; [reflexivity|split; [|intros Hem; vm_compute in Hem; discriminate]].
    right. split; [reflexivity|].
    unfold rejected in R. now destruct (is_safe_query (clean_sql_query sql)).
  - split; [reflexivity|split; [|intros _; exact X]].
    right. split; [reflexivity | apply X].
Qed.

Lemma handle_empty_results_trace (question prompt table_info : string) :
  trace (handle_empty_results w st question prompt table_info) =
    st_warning "No results found. Let me try a different approach..." ::
    model_call question prompt table_info 2 ::
    after_fallback w st question (generate w question prompt table_info 2).
Proof.
  unfold handle_empty_results, generate_sql_from_question, after_fallback.
  step_trace. do 2 f_equal.
  destruct (truthy_response _) as [r|]; [|reflexivity].
  destruct (parse_openai_response r) as [[[fsql fviz] freason] fins].
  destruct (truthy fsql); [|reflexivity].
  step_trace. do 3 f_equal.
  destruct (empty _); cbn [negb]; [reflexivity|].
  step_trace. destruct (truthy fins); reflexivity.
Qed.

Lemma suggestions_observed :
  attempts (trace (show_fallback_suggestions st)) = [] /\
  executions (trace (show_fallback_suggestions st)) = [] /\
  forall df v r q, ~ In (create_visualization df v r q) (trace (show_fallback_suggestions st)).
Proof.
  unfold show_fallback_suggestions. step_trace. repeat split.
  intros df v r q H. simpl in H. intuition discriminate.
Qed.

Lemma after_fallback_observed (question : string) (fallback_response : option string) :
  attempts (after_fallback w st question fallback_response) = [] /\
  (executions (after_fallback w st question fallback_response) = [] \/
   exists s, executions (after_fallback w st question fallback_response) = [s] /\
             is_safe_query s = true) /\
  forall df v r q,
    In (create_visualization df v r q) (after_fallback w st question fallback_response) ->
    empty df = false /\
    exists sql, executed w sql (db_engine st) df.
Proof.
  destruct suggestions_observed as (SA & SE & SV).
  unfold after_fallback.
  destruct (truthy_response fallback_response) as [r|];
    [|split; [|split]; auto; intros df v r' q H; now apply SV in H].
  destruct (parse_openai_response r) as [[[fsql fviz] freason] fins].
  destruct (truthy fsql);
    [|split; [|split]; auto; intros df v r' q H; now apply SV in H].
  destruct (executor_observed fsql) as (EA & EE & EV).
  cbn [attempts executions]. rewrite attempts_app, executions_app, EA.
  destruct (empty (value (execute_sql_query w fsql (db_engine st)))) eqn:Em.
  - rewrite SA, SE, !app_nil_r. split; [reflexivity|]. split.
    + destruct EE as [->|[-> S]]; [left; reflexivity|right; eauto].
    + intros df v r' q [H|[H|H]]; try discriminate.
      apply in_app_or in H as [H|H]; [|now apply SV in H].
      exfalso.
      destruct (execute_sql_query_cases w fsql (db_engine st))
        as [[_ E]|[(_ & _ & E)|[(_ & _ & e & _ & E)|(df' & _ & E)]]];
        rewrite E in H; simpl in H; try (intuition discriminate).
      destruct H as [H|H]; [discriminate|].
      apply (proj2 (handle_query_error_reports e _)) in H as [[m H]|[m H]]; discriminate.
  - split; [destruct (truthy fins); reflexivity|]. split.
    + destruct EE as [->|[-> S]]; [left|right; exists (clean_sql_query fsql)];
        destruct (truthy fins); auto.
    + intros df v r' q [H|[H|H]]; try discriminate.
      apply in_app_or in H as [H|H].
      * exfalso.
        destruct (execute_sql_query_cases w fsql (db_engine st))
          as [[_ E]|[(_ & _ & E)|[(_ & _ & e & _ & E)|(df' & _ & E)]]];
          rewrite E in H; simpl in H; try (intuition discriminate).
        destruct H as [H|H]; [discriminate|].
        apply (proj2 (handle_query_error_reports e _)) in H as [[m H]|[m H]]; discriminate.
      * destruct H as [H|[H|H]]; try discriminate.
        -- inversion H; subst. split; [exact Em|]. exists fsql. now apply EV.
        -- destruct (truthy fins); simpl in H; intuition discriminate.
Qed.

Lemma show_results_observed (question sql viz reason ins : string) (df : DataFrame) :
  attempts (show_results question sql viz reason ins df) = [] /\
  executions (show_results question sql viz reason ins df) = [] /\
  forall df' v r q,
    In (create_visualization df' v r q) (show_results question sql viz reason ins df) ->
    df' = df.
Proof.
  unfold show_results. destruct (truthy ins); repeat split;
    intros df' v r q H; simpl in H;
    repeat (destruct H as [H|H]; [try discriminate; now inversion H|]); contradiction.
Qed.

Lemma executor_shows_nothing (sql : string) (df : DataFrame) (v r q : string) :
  ~ In (create_visualization df v r q) (trace (execute_sql_query w sql (db_engine st))).
Proof.
  intros H.
  destruct (execute_sql_query_cases w sql (db_engine st))
    as [[_ E]|[(_ & _ & E)|[(_ & _ & e & _ & E)|(df' & _ & E)]]];
    rewrite E in H; simpl in H; try (intuition discriminate).
  destruct H as [H|H]; [discriminate|].
  apply (proj2 (handle_query_error_reports e _)) in H as [[m H]|[m H]]; discriminate.
Qed.

(** What [process_ai_response] contributes to a run. *)
Lemma process_ai_response_observed (question response prompt table_info : string) :
  (attempts (trace (process_ai_response w st question response prompt table_info)) = [] \/
   attempts (trace (process_ai_response w st question response prompt table_info)) = [2]) /\
  List.length (executions (trace (process_ai_response w st question response prompt table_info)))
  <= 1 + List.length (attempts (trace (process_ai_response w st question response
                                                             prompt table_info))) /\
  Forall (fun s => is_safe_query s = true)
         (executions (trace (process_ai_response w st question response prompt table_info))) /\
  forall df v r q,
    In (create_visualization df v r q)
       (trace (process_ai_response w st question response prompt table_info)) ->
    empty df = false /\ exists sql, executed w sql (db_engine st) df.
Proof.
  destruct (parse_openai_response response) as [[[sql viz] reason] ins] eqn:P.
  destruct (truthy sql) eqn:T.
  - rewrite (process_ai_response_trace w st _ _ _ _ _ _ _ _ P T).
    cbn [attempts executions]. rewrite attempts_app, executions_app.
    destruct (executor_observed sql) as (EA & EE & EV). rewrite EA. cbn [app].
    destruct (empty (value (execute_sql_query w sql (db_engine st)))) eqn:Em.
    + rewrite handle_empty_results_trace. cbn [attempts executions].
      destruct (after_fallback_observed question (generate w question prompt table_info 2))
        as (FA & FE & FV).
      rewrite FA. split; [now right|]. split; [|split].
      * rewrite length_app. cbn [List.length].
        destruct EE as [->|[-> _]]; destruct FE as [->|(s & -> & _)];
          cbn [List.length]; lia.
      * apply Forall_app. split.
        -- destruct EE as [->|[-> S]]; repeat constructor; assumption.
        -- destruct FE as [->|(s & -> & S)]; repeat constructor; assumption.
      * intros df v r q [H|[H|H]]; try discriminate.
        apply in_app_or in H as [H|H]; [now apply executor_shows_nothing in H|].
        destruct H as [H|[H|H]]; try discriminate. now apply FV in H.
    + destruct (show_results_observed question sql viz reason ins
                  (value (execute_sql_query w sql (db_engine st)))) as (RA & RE & RV).
      rewrite RA, RE, app_nil_r. split; [now left|]. split; [|split].
      * destruct EE as [->|[-> _]]; cbn [List.length]; lia.
      * destruct EE as [->|[-> S]]; repeat constructor; assumption.
      * intros df v r q [H|[H|H]]; try discriminate.
        apply in_app_or in H as [H|H]; [now apply executor_shows_nothing in H|].
        apply RV in H. subst df. split; [exact Em|]. exists sql. now apply EV.
  - unfold process_ai_response. rewrite P, T. cbn [negb]. rewrite trace_emit.
    cbn [attempts executions List.length]. split; [now left|].
    split; [lia|]. split; [constructor|].
    intros df v r q [H|[]]. discriminate.
Qed.

Lemma handle_query_submission_trace (question prompt table_info : string) :
  trace (handle_query_submission w st question prompt table_info) =
    if String.length (strip question) <? 5
    then [st_warning (if negb (truthy question) || negb (truthy (strip question))
                      then "Please enter a question to analyze your data."
                      else "Please enter a more detailed question.")]
    else model_call question prompt table_info 1 ::
         (match truthy_response (generate w question prompt table_info 1) with
          | Some response =>
              trace (process_ai_response w st question response prompt table_info)
          | None =>
              [render_status_indicator "error"
                 "Failed to generate SQL query. Please try again with a different question."]
          end).
Proof.
  unfold handle_query_submission, generate_sql_from_question.
  destruct (negb (truthy question) || negb (truthy (strip question))) eqn:E.
  - assert (L : (String.length (strip question) <? 5) = true).
    { apply Nat.ltb_lt. apply orb_true_iff in E as [E|E]; apply negb_true_iff in E.
      - destruct question; [simpl; lia | discriminate].
      - destruct (strip question); [simpl; lia | discriminate]. }
    rewrite L. reflexivity.
  - destruct (String.length (strip question) <? 5); [reflexivity|].
    step_trace. f_equal. destruct (truthy_response _); reflexivity.
Qed.

(** X4: one submission is a ladder of at most two attempts: the model is
    called not at all, once (attempt 1), or twice (attempt 1, then attempt
    2); it is not called at all exactly when the trimmed question has fewer
    than 5 characters.  The backend is called at most once per model call,
    and only with texts the safety filter accepts. *)
Theorem two_attempt_ladder (question prompt table_info : string) :
  (attempts (trace (handle_query_submission w st question prompt table_info)) = [] \/
   attempts (trace (handle_query_submission w st question prompt table_info)) = [1] \/
   attempts (trace (handle_query_submission w st question prompt table_info)) = [1; 2]) /\
  (attempts (trace (handle_query_submission w st question prompt table_info)) = [] <->
   String.length (strip question) < 5) /\
  List.length (executions (trace (handle_query_submission w st question prompt table_info)))
  <= List.length (attempts (trace (handle_query_submission w st question prompt table_info))) /\
  Forall (fun s => is_safe_query s = true)
         (executions (trace (handle_query_submission w st question prompt table_info))).
Proof.
  rewrite handle_query_submission_trace.
  destruct (Nat.ltb_spec (String.length (strip question)) 5) as [L|L].
  - cbn [attempts executions List.length]. repeat split; auto.
  - cbn [attempts executions].
    destruct (truthy_response (generate w question prompt table_info 1)) as [r|].
    + destruct (process_ai_response_observed question r prompt table_info)
        as (A & N & S & _).
      split; [destruct A as [-> | ->]; auto|]. split; [|split; [|exact S]].
      * split; [discriminate | lia].
      * cbn [List.length]. lia.
    + cbn [attempts executions List.length]. repeat split; auto; try lia.
      discriminate.
Qed.

(** X5: a chart is only ever drawn for a frame that is not empty and that
    the backend returned for a query the safety filter accepted. *)
Theorem charts_show_backend_results
        (question prompt table_info : string) (df : DataFrame) (v r q : string) :
  In (create_visualization df v r q)
     (trace (handle_query_submission w st question prompt table_info)) ->
  empty df = false /\
  exists sql,
    is_safe_query (clean_sql_query sql) = true /\
    read_sql_query w (clean_sql_query sql) (db_engine st) = Returns df.
Proof.
  rewrite handle_query_submission_trace.
  destruct (String.length (strip question) <? 5).
  - intros [H|[]]. discriminate.
  - intros [H|H]; [discriminate|].
    destruct (truthy_response (generate w question prompt table_info 1)) as [resp|].
    + apply process_ai_response_observed in H as [Em (sql & _ & S & R)]. eauto.
    + destruct H as [H|[]]. discriminate.
Qed.

End Run.

Lemma charts_show_backend_results_witness :
  empty Scenarios.one_row = false.
Proof.
  apply (charts_show_backend_results Scenarios.scripted Scenarios.st0
           "show me the users" "PROMPT" "INFO"
           Scenarios.one_row "table" "lists the users" "show me the users").
  vm_compute. tauto.
Defined.

End LadderFacts.

(** ** Suggested queries *)

Module AutoRunFacts.
Import PyStr Session Queries ResponseParser Outcomes Observations AutoRun.
Import PyStrFacts ExecutorFacts LadderFacts.

Lemma core_app (a b : list page_event) : core (a ++ b) = (core a ++ core b)%list.
Proof.
  induction a as [|e a IH]; [reflexivity|].
  destruct e; cbn [app core]; rewrite ?IH; reflexivity.
Qed.

Lemma core_shown (t : list event) : core (map shown t) = t.
Proof. induction t as [|e t IH]; [reflexivity|]. cbn [map core]. now rewrite IH. Qed.

(** X6: running a suggested query never falls back: the model is called
    exactly once, with attempt 1, whatever the outcome; the backend is called
    at most once and only with a text the safety filter accepts; the
    session's pending suggestion is cleared.  Without a pending suggestion
    nothing happens. *)
Theorem auto_run_is_single_attempt
        (w : World) (st : session_state) (prompt table_info : string) :
  handle_auto_run_queries w st None prompt table_info = ([], None) /\
  forall auto_query,
    attempts (core (fst (handle_auto_run_queries w st (Some auto_query) prompt table_info)))
    = [1] /\
    List.length
      (executions
         (core (fst (handle_auto_run_queries w st (Some auto_query) prompt table_info))))
    <= 1 /\
    Forall (fun s => is_safe_query s = true)
      (executions
         (core (fst (handle_auto_run_queries w st (Some auto_query) prompt table_info)))) /\
    snd (handle_auto_run_queries w st (Some auto_query) prompt table_info) = None.
Proof.
  split; [reflexivity|]. intros auto_query.
  unfold handle_auto_run_queries. cbn [fst snd core attempts executions].
  destruct (CustomQuery.truthy_response _) as [r|];
    [|cbn [core attempts executions List.length]; repeat split; auto].
  destruct (parse_openai_response r) as [[[sql viz] reason] ins].
  destruct (truthy sql);
    [|cbn [core attempts executions List.length]; repeat split; auto].
  cbn [core attempts executions]. rewrite core_app, core_shown.
  rewrite attempts_app, executions_app.
  destruct (executor_observed w st sql) as (EA & EE & _). rewrite EA. cbv zeta.
  destruct (negb (empty _)); [destruct (truthy ins)|];
    unfold show_related_suggestions;
    cbn [core app attempts executions]; rewrite ?app_nil_r;
    (split; [reflexivity|]; split; [|split; [|reflexivity]]);
    destruct EE as [-> | [-> S]]; cbn [List.length]; try lia;
    repeat constructor; assumption.
Qed.

Lemma In_firstn {A} (n : nat) (l : list A) (x : A) : In x (firstn n l) -> In x l.
Proof. intros H. rewrite <- (firstn_skipn n l). apply in_or_app. now left. Qed.

(** X7: at most three related questions are proposed, each taken from the
    five stock questions, and never one that occurs in the question just
    asked, whatever its letter case; in particular a stock question that was
    just asked is not proposed again. *)
Theorem related_suggestions_are_new (current_query : string) :
  List.length (generate_related_suggestions current_query) <= 3 /\
  (forall s, In s (generate_related_suggestions current_query) ->
             In s base_suggestions /\
             forall a b, lower current_query <> a ++ lower s ++ b) /\
  (forall s, lower current_query = lower s ->
             ~ In s (generate_related_suggestions current_query)).
Proof.
  unfold generate_related_suggestions; cbv zeta.
  assert (F : forall s,
             In s (firstn 3 (filter (fun s => negb (contains (lower s) (lower current_query)))
                                    base_suggestions)) ->
             In s base_suggestions /\ contains (lower s) (lower current_query) = false).
  { intros s H. apply In_firstn, filter_In in H as [H1 H2].
    split; [exact H1 | now apply negb_true_iff]. }
  split; [apply firstn_le_length|]. split.
  - intros s H. destruct (F s H) as [H1 H2]. split; [exact H1|].
    now apply contains_false.
  - intros s E H. destruct (F s H) as [_ H2].
    rewrite E in H2.
    rewrite (prefix_contains (lower s) (lower s)) in H2; [discriminate|].
    clear. induction (lower s) as [|c t IH]; [reflexivity|].
    cbn [prefix]. destruct (ascii_dec c c) as [_|ne]; [exact IH | now elim ne].
Qed.

Lemma related_suggestions_are_new_witness :
  ~ In "Show data distribution" (generate_related_suggestions "SHOW DATA DISTRIBUTION").
Proof.
  apply (proj2 (proj2 (related_suggestions_are_new "SHOW DATA DISTRIBUTION"))).
  reflexivity.
Defined.

End AutoRunFacts.

(** ** What the parser guarantees *)

Module ParsedFacts.
Import PyStr Re Session Queries ResponseParser ResponseValidation CustomQuery.
Import PyStrFacts ReFacts ChartKind ExecutorFacts.

(** The two lists of valid chart kinds of the module are the same list. *)
Lemma valid_viz_types_same : valid_viz_types = valid_types.
Proof. reflexivity. Qed.

Lemma parsed_kind (response : string) :
  In (snd (fst (fst (parse_openai_response response)))) valid_types.
Proof.
  unfold parse_openai_response.
  destruct (negb (truthy response)); cbn [fst snd]; [simpl; tauto|].
  apply normalized_is_valid.
Qed.

(** X8: the chart kind of every parsed response is one of the eight known
    kinds, so the companion validator never finds fault with it: it accepts
    a parsed response exactly when the query has at least 10 characters and
    starts with SELECT or WITH and the rationale is not empty. *)
Theorem parsed_response_validation (response sql viz reason ins : string) :
  parse_openai_response response = (sql, viz, reason, ins) ->
  In viz ["bar_chart"; "line_chart"; "pie_chart"; "scatter_plot";
          "histogram"; "box_plot"; "heatmap"; "table"] /\
  (forall msg, In msg (issues sql viz reason ins) ->
               msg <> "Invalid visualization type: " ++ viz) /\
  (fst (validate_parsed_response sql viz reason ins) = true <->
   10 <= String.length sql /\
   startswith_any (strip (upper sql)) ["SELECT"; "WITH"] = true /\
   reason <> "").
Proof.
  intros P. pose proof (parsed_kind response) as K. rewrite P in K. cbn [fst snd] in K.
  split; [exact K|].
  assert (V : existsb (String.eqb viz) valid_viz_types = true).
  { apply existsb_exists. exists viz. split; [exact K | apply String.eqb_refl]. }
  unfold validate_parsed_response, issues. rewrite V. cbn [negb app].
  split.
  - intros msg H E. subst msg.
    apply in_app_or in H as [H|H].
    + destruct (negb (truthy sql)); [|destruct (String.length sql <? 10);
        [|destruct (negb (startswith_any _ _))]];
        simpl in H; intuition discriminate.
    + destruct (negb (truthy reason)); simpl in H; intuition discriminate.
  - destruct sql as [|c sql']; cbn [truthy negb].
    + simpl. split; [discriminate | intros [H _]; lia].
    + destruct (Nat.ltb_spec (String.length (String c sql')) 10) as [L|L].
      * cbn [app fst]. split; [discriminate | intros [H _]; lia].
      * destruct (startswith_any (strip (upper (String c sql'))) ["SELECT"; "WITH"]);
          cbn [negb app].
        -- destruct reason; cbn [truthy negb fst]; split; auto; try discriminate.
           ++ intros (_ & _ & H). now elim H.
           ++ intros _. repeat split; auto. discriminate.
        -- simpl. split; [discriminate | intros (_ & H & _); discriminate].
Qed.

Lemma parsed_response_validation_witness :
  fst (validate_parsed_response
         "SELECT region, SUM(sales) FROM t GROUP BY region"
         "bar_chart" "ranks regions" "region A leads") = true.
Proof.
  assert (P : parse_openai_response Canonical.scenario_A
              = ("SELECT region, SUM(sales) FROM t GROUP BY region",
                 "bar_chart", "ranks regions", "region A leads"))
    by (vm_compute; reflexivity).
  apply (proj2 (proj2 (parsed_response_validation _ _ _ _ _ P))).
  split; [cbn; lia | split; [reflexivity | discriminate]].
Defined.

End ParsedFacts.

(** ** Responses without a query *)

Module ExtractionFacts.
Import PyStr Re Session Queries ResponseParser CustomQuery Observations.
Import PyStrFacts ReFacts ExecutorFacts.

Lemma lower_app (a b : string) : lower (a ++ b) = lower a ++ lower b.
Proof. unfold lower. induction a as [|c a IH]; [reflexivity|]. simpl. now rewrite IH. Qed.

(** A text that does not occur in [s] starts none of its suffixes. *)
Lemma absent_everywhere (n a b : string) :
  contains n (a ++ b) = false -> prefix n b = false.
Proof.
  induction a as [|c a IH]; intros H.
  - simpl in H. destruct (prefix n b) eqn:E; [|reflexivity].
    now rewrite (prefix_contains _ _ E) in H.
  - cbn [append contains] in H. apply orb_false_iff in H as [_ H]. exact (IH H).
Qed.

Section CaseInsensitive.
Variable f : flags.
Hypothesis ci : ignorecase f = true.
Variable A : Type.

Lemma lit_ci_none (l s : string) (p : option ascii) :
  prefix (lower l) (lower s) = false -> lit f l (p, s) = None.
Proof.
  revert p s; induction l as [|x l IH]; intros p s H.
  - destruct s; discriminate.
  - destruct s as [|y s]; [reflexivity|].
    cbn [lit snd]. unfold char_eq. rewrite ci.
    unfold lower in H. cbn [map_string prefix] in H.
    destruct (Ascii.eqb_spec (lower_char x) (lower_char y)) as [E|E]; [|reflexivity].
    apply IH. destruct (ascii_dec (lower_char x) (lower_char y)); [exact H | contradiction].
Qed.

Lemma scan_none (s : string) (k : cfg -> option A) :
  (forall p a b, s = a ++ b -> k (p, b) = None) ->
  forall p, scan A p s k = None.
Proof.
  induction s as [|c s IH]; intros H p.
  - simpl. now rewrite (H p "" "" eq_refl).
  - cbn [scan]. rewrite (H p "" (String c s) eq_refl).
    apply IH. intros p' a b E. apply (H p' (String c a) b). now rewrite E.
Qed.

End CaseInsensitive.

(** A pattern that opens with a literal finds nothing in a text in which the
    literal does not occur, whatever the letter case. *)
Lemma re_search_needs_literal (f : flags) (l : string) (pre grp post : re) (s : string) :
  ignorecase f = true ->
  contains (lower l) (lower s) = false ->
  search_groups f (Seq (Lit l) pre) grp post s = None /\
  search_groups f Eps (Seq (Lit l) grp) post s = None.
Proof.
  intros ci H. unfold search_groups.
  split; apply scan_none; intros p a b E; cbn [run];
    rewrite (lit_ci_none f ci); try reflexivity;
    apply (absent_everywhere _ (lower a)); rewrite <- lower_app, <- E; exact H.
Qed.

Section NoQuery.
Variable response : string.
Hypothesis no_fence : contains "```sql" (lower response) = false.
Hypothesis no_label : contains "sql_query:" (lower response) = false.
Hypothesis no_select : contains "select" (lower response) = false.
Hypothesis no_with : contains "with" (lower response) = false.

Lemma extract_sql_from_text_nothing : extract_sql_from_text response = "".
Proof.
  unfold extract_sql_from_text, re_search,
    fenced_sql_pattern, sql_query_pattern, select_pattern, sql_like_pattern.
  rewrite (proj1 (re_search_needs_literal DOTALL_IGNORECASE "```sql" _ _ _ response
                    eq_refl no_fence)).
  rewrite (proj1 (re_search_needs_literal IGNORECASE "SQL_QUERY:" _ _ _ response
                    eq_refl no_label)).
  rewrite (proj2 (re_search_needs_literal DOTALL_IGNORECASE "SELECT" Eps _ _ response
                    eq_refl no_select)).
  assert (N : search_groups DOTALL_IGNORECASE WordB (Alt (Lit "SELECT") (Lit "WITH"))
                            (Seq WordB (Star true Dot)) response = None).
  { unfold search_groups. apply scan_none. intros p a b E. cbn [run].
    assert (S : lit DOTALL_IGNORECASE "SELECT" (p, b) = None).
    { apply (lit_ci_none DOTALL_IGNORECASE eq_refl). apply (absent_everywhere _ (lower a)).
      rewrite <- lower_app, <- E. exact no_select. }
    assert (W : lit DOTALL_IGNORECASE "WITH" (p, b) = None).
    { apply (lit_ci_none DOTALL_IGNORECASE eq_refl). apply (absent_everywhere _ (lower a)).
      rewrite <- lower_app, <- E. exact no_with. }
    rewrite S, W. now destruct (xorb _ _). }
  rewrite N. reflexivity.
Qed.

(** Joining the lines of a text with line feeds gives the text back. *)
Lemma split_char_join (s : string) : join nl (split_char newline s) = s.
Proof.
  unfold join. induction s as [|c s IH]; [reflexivity|].
  cbn [split_char]. destruct (Ascii.eqb_spec c newline) as [->|ne].
  - destruct (split_char newline s) as [|h t] eqn:E.
    + destruct s; [discriminate E|]. cbn [split_char] in E.
      destruct (Ascii.eqb a newline); [discriminate|].
      destruct (split_char newline s); discriminate.
    + change (String.concat nl ("" :: h :: t)) with (nl ++ String.concat nl (h :: t)).
      now rewrite IH.
  - destruct (split_char newline s) as [|h t] eqn:E.
    + destruct s; [discriminate E|]. cbn [split_char] in E.
      destruct (Ascii.eqb a newline); [discriminate|].
      destruct (split_char newline s); discriminate.
    + destruct t as [|h2 t]; cbn [String.concat append] in *; now rewrite IH.
Qed.

Lemma joined_occurs (sep x : string) (l : list string) :
  In x l -> exists a b, join sep l = a ++ x ++ b.
Proof.
  unfold join. induction l as [|y l IH]; intros H; [contradiction|].
  destruct l as [|z l].
  - destruct H as [->|[]]. exists "", "". cbn [String.concat append].
    clear. induction x; simpl; congruence.
  - change (String.concat sep (y :: z :: l))
      with (y ++ sep ++ String.concat sep (z :: l)).
    destruct H as [->|H].
    + exists "", (sep ++ String.concat sep (z :: l)). reflexivity.
    + destruct (IH H) as (a & b & ->).
      exists (y ++ sep ++ a), b. now rewrite !app_assoc.
Qed.

Lemma line_occurs (line s : string) :
  In line (split_char newline s) -> exists a b, s = a ++ line ++ b.
Proof.
  intros H. destruct (joined_occurs nl line _ H) as (a & b & E).
  rewrite split_char_join in E. eauto.
Qed.

(** No line of the response opens the SQL field. *)
Lemma no_sql_line (line : string) :
  In line (split_char newline response) -> startswith line "SQL_QUERY:" = false.
Proof.
  intros H. destruct (line_occurs _ _ H) as (a & b & E).
  destruct (startswith line "SQL_QUERY:") eqn:S; [|reflexivity].
  apply prefix_split in S as [r ->].
  rewrite E, !lower_app in no_label.
  change (lower "SQL_QUERY:") with "sql_query:" in no_label.
  rewrite app_assoc in no_label.
  now rewrite contains_app in no_label.
Qed.

Lemma fold_keeps_sql (lines : list string) (acc : fields) :
  (forall line, In line lines -> startswith line "SQL_QUERY:" = false) ->
  sql_query (fold_left parse_line lines acc) = sql_query acc.
Proof.
  revert acc; induction lines as [|l lines IH]; intros acc H; [reflexivity|].
  cbn [fold_left]. rewrite IH by (intros; apply H; now right).
  unfold parse_line. rewrite (H l (or_introl eq_refl)).
  repeat match goal with |- context [if ?b then _ else _] => destruct b end; reflexivity.
Qed.

Lemma no_query_in_response :
  fst (fst (fst (parse_openai_response response))) = "" /\
  forall (w : World) (st : session_state) (question prompt table_info : string),
    trace (process_ai_response w st question response prompt table_info) =
      [render_status_indicator "error"
         "Could not extract a valid SQL query from AI response."].
Proof.
  assert (P : fst (fst (fst (parse_openai_response response))) = "").
  { unfold parse_openai_response.
    destruct (negb (truthy response)); [reflexivity|]. cbv zeta.
    rewrite (fold_keeps_sql _ defaults no_sql_line).
    cbn [sql_query defaults truthy negb].
    rewrite extract_sql_from_text_nothing. reflexivity. }
  split; [exact P|]. intros w st question prompt table_info.
  unfold process_ai_response.
  destruct (parse_openai_response response) as [[[sql viz] reason] ins].
  cbn [fst] in P. subst sql. reflexivity.
Qed.

End NoQuery.

(** X9: a response of ASCII characters that mentions none of [```sql],
    [sql_query:], [select] and [with], in any letter case, yields no query:
    the parsed SQL is empty, and the page shows the extraction error and
    calls neither the backend nor the model again. *)
Theorem no_query_is_extracted (response : string) :
  isascii response = true ->
  contains "```sql" (lower response) = false ->
  contains "sql_query:" (lower response) = false ->
  contains "select" (lower response) = false ->
  contains "with" (lower response) = false ->
  fst (fst (fst (parse_openai_response response))) = "" /\
  forall (w : World) (st : session_state) (question prompt table_info : string),
    trace (process_ai_response w st question response prompt table_info) =
      [render_status_indicator "error"
         "Could not extract a valid SQL query from AI response."].
Proof.
  intros _ no_fence no_label no_select no_with.
  exact (no_query_in_response response no_fence no_label no_select no_with).
Qed.

Lemma no_query_is_extracted_witness :
  fst (fst (fst (parse_openai_response "I cannot answer that question."))) = "".
Proof.
  apply (no_query_is_extracted "I cannot answer that question."); reflexivity.
Defined.

End ExtractionFacts.

(** ** Prompt builder: suggestions, domains and context *)

Module PromptMoreFacts.
Import PyStr PromptManager PromptContext Columns PyStrFacts.

(** X10: the first three suggestions are always the three generic
    questions (the page shows exactly these as its quick-start queries).
    With a text column and two numeric columns the list is cut after the
    comparison suggestion: the breakdown and the date suggestions are never
    offered.  Without numeric columns nothing is cut. *)
Theorem sample_queries_priority
        (table_name : string) (columns : list string)
        (data_types : option (list (string * string))) :
  firstn 3 (get_sample_queries table_name columns data_types) = generic_queries /\
  (forall t ts n m ns,
      text_cols data_types = t :: ts ->
      numeric_cols data_types = n :: m :: ns ->
      get_sample_queries table_name columns data_types =
        ["Show me a sample of the data";
         "What are the column statistics?";
         "How many total records are there?";
         "Show distribution of " ++ t;
         "What are the most common values in " ++ t ++ "?";
         "Show statistics for " ++ n;
         "What's the average " ++ n ++ "?";
         "Compare " ++ n ++ " and " ++ m]) /\
  (numeric_cols data_types = [] ->
   get_sample_queries table_name columns data_types =
     List.app generic_queries
       (List.app
          match text_cols data_types with
          | t :: _ => ["Show distribution of " ++ t;
                       "What are the most common values in " ++ t ++ "?"]
          | [] => []
          end
          match date_cols data_types with
          | d :: _ => ["Show trends over " ++ d; "What's the date range in the data?"]
          | [] => []
          end)).
Proof.
  unfold get_sample_queries, text_cols, numeric_cols, date_cols, generic_queries.
  cbv zeta.
  generalize (cols_of (fun dtype => existsb (String.eqb dtype) ["integer"; "numeric"])
                      data_types) as nums.
  generalize (cols_of (fun dtype => String.eqb dtype "text") data_types) as texts.
  generalize (cols_of (fun dtype => String.eqb dtype "datetime") data_types) as dates.
  intros dates texts nums. split; [|split].
  - destruct texts as [|t ts], nums as [|n [|m ns]], dates as [|d ds]; reflexivity.
  - intros t ts n m ns -> ->. destruct dates; reflexivity.
  - intros ->. destruct texts as [|t ts], dates as [|d ds]; reflexivity.
Qed.

Lemma sample_queries_priority_witness :
  get_sample_queries "orders" ["region"; "sales"; "cost"; "day"]
    (Some [("region", "text"); ("sales", "numeric"); ("cost", "integer");
           ("day", "datetime")])
  = ["Show me a sample of the data";
     "What are the column statistics?";
     "How many total records are there?";
     "Show distribution of region";
     "What are the most common values in region?";
     "Show statistics for sales";
     "What's the average sales?";
     "Compare sales and cost"].
Proof.
  apply (proj1 (proj2 (sample_queries_priority "orders" ["region"; "sales"; "cost"; "day"]
                         (Some [("region", "text"); ("sales", "numeric");
                                ("cost", "integer"); ("day", "datetime")])))
               "region" [] "sales" "cost" []); reflexivity.
Defined.

Lemma max_key_spec (items : list (string * nat)) (best : string * nat) :
  exists v,
    In (max_key items best, v) (best :: items) /\
    forall kv, In kv (best :: items) -> snd kv <= v.
Proof.
  revert best; induction items as [|kv items IH]; intros best.
  - exists (snd best). split; [left; now destruct best|].
    intros kv [<-|[]]. lia.
  - cbn [max_key]. destruct (Nat.ltb_spec (snd best) (snd kv)) as [L|L].
    + destruct (IH kv) as (v & Hin & Hmax). exists v. split; [now right|].
      intros kv' [<-|H]; [|now apply Hmax].
      specialize (Hmax kv (or_introl eq_refl)). lia.
    + destruct (IH best) as (v & Hin & Hmax). exists v. split.
      * destruct Hin as [Hin|Hin]; [now left | right; now right].
      * intros kv' [<-|[<-|H]].
        -- apply Hmax. now left.
        -- specialize (Hmax best (or_introl eq_refl)). lia.
        -- apply Hmax. now right.
Qed.

Lemma max_value_spec (l : list nat) :
  (forall x, In x l -> x <= max_value l) /\
  (l <> [] -> In (max_value l) l).
Proof.
  induction l as [|x l [IH1 IH2]]; [split; [intros x []|congruence]|].
  cbn [max_value fold_right]. fold (max_value l). split.
  - intros y [<-|H]; [lia|]. specialize (IH1 y H). lia.
  - intros _. destruct l as [|z l].
    + left. simpl. lia.
    + destruct (Nat.max_spec x (max_value (z :: l))) as [[_ ->]|[_ ->]].
      * right. apply IH2. discriminate.
      * now left.
Qed.

(** X11: [detect_business_domain] answers with a domain only when at least
    two of that domain's keywords occur in the lower-cased column names, and
    then no domain has more hits than the one it names; it answers
    "general" exactly when every domain has fewer than two hits. *)
Theorem detect_business_domain_spec (columns : list string) :
  (detect_business_domain columns = "general" <->
   forall d kws, In (d, kws) domains -> score (lower (join " " columns)) kws < 2) /\
  (detect_business_domain columns <> "general" ->
   exists kws,
     In (detect_business_domain columns, kws) domains /\
     2 <= score (lower (join " " columns)) kws /\
     forall d' kws', In (d', kws') domains ->
                     score (lower (join " " columns)) kws'
                     <= score (lower (join " " columns)) kws).
Proof.
  unfold detect_business_domain; cbv zeta.
  set (text := lower (join " " columns)).
  remember (map (fun dk => (fst dk, score text (snd dk))) domains) as scores eqn:Es.
  assert (Hs : forall d kws, In (d, kws) domains -> In (d, score text kws) scores).
  { intros d kws H. rewrite Es.
    apply (in_map (fun dk => (fst dk, score text (snd dk))) _ _ H). }
  assert (Hb : forall d v, In (d, v) scores ->
                           exists kws, In (d, kws) domains /\ v = score text kws).
  { intros d v H. rewrite Es in H. apply in_map_iff in H as ([d0 kws] & E & H).
    inversion E; subst. eauto. }
  assert (Hg : forall d v, In (d, v) scores -> d <> "general").
  { intros d v H. destruct (Hb d v H) as (kws & Hin & _).
    unfold domains in Hin. simpl in Hin.
    repeat (destruct Hin as [Hin|Hin]; [inversion Hin; discriminate|]). contradiction. }
  destruct scores as [|first rest]; [discriminate Es|].
  destruct (max_value_spec (map snd (first :: rest))) as [M1 M2].
  specialize (M2 ltac:(discriminate)).
  destruct (Nat.leb_spec 2 (max_value (map snd (first :: rest)))) as [L|L].
  - destruct (max_key_spec rest first) as (v & Hin & Hmax).
    assert (Hv : 2 <= v).
    { apply in_map_iff in M2 as (kv & E & Hkv). specialize (Hmax kv Hkv). lia. }
    destruct (Hb _ _ Hin) as (kws & Hd & Ev). split.
    + split.
      * intros E. exfalso. apply (Hg _ _ Hin E).
      * intros H. specialize (H _ _ Hd). lia.
    + intros _. exists kws. split; [exact Hd|]. split; [lia|].
      intros d' kws' H'. specialize (Hmax _ (Hs _ _ H')). simpl in Hmax. lia.
  - split.
    + split; [|reflexivity]. intros _ d kws H.
      specialize (M1 (score text kws)).
      assert (In (score text kws) (map snd (first :: rest))).
      { apply in_map_iff. exists (d, score text kws). split; [reflexivity|]. now apply Hs. }
      specialize (M1 H0). lia.
    + intros H. now elim H.
Qed.

Lemma detect_business_domain_spec_witness :
  exists kws,
    In (detect_business_domain ["Order_ID"; "Customer"; "Price"], kws) domains /\
    2 <= score (lower (join " " ["Order_ID"; "Customer"; "Price"])) kws.
Proof.
  destruct (proj2 (detect_business_domain_spec ["Order_ID"; "Customer"; "Price"]))
    as (kws & H1 & H2 & _).
  - vm_compute. discriminate.
  - exists kws. split; assumption.
Defined.

Lemma app_same_left (a x : string) : a ++ x = a -> x = "".
Proof. induction a as [|c a IH]; [auto|]. simpl. intros H. inversion H. auto. Qed.

(** X12: [enhance_prompt_with_context] only ever appends to the base
    prompt, and it returns the base prompt unchanged exactly when none of
    the three context entries (previous queries, user preferences, business
    context) is present and non-empty. *)
Theorem enhance_prompt_appends (base_prompt : string)
        (context_info : list (string * string)) :
  (exists suffix, enhance_prompt_with_context base_prompt context_info
                  = base_prompt ++ suffix) /\
  (enhance_prompt_with_context base_prompt context_info = base_prompt <->
   truthy_entry context_info "previous_queries" = false /\
   truthy_entry context_info "user_preferences" = false /\
   truthy_entry context_info "business_context" = false).
Proof.
  unfold enhance_prompt_with_context, enhancements.
  destruct (truthy_entry context_info "previous_queries"),
           (truthy_entry context_info "user_preferences"),
           (truthy_entry context_info "business_context");
    cbn [app]; (split; [eexists; try reflexivity|]);
    try (split; [intros H; apply app_same_left in H; discriminate
                | intros (H1 & H2 & H3); discriminate]).
  - instantiate (1 := ""). clear. induction base_prompt; simpl; congruence.
  - split; auto.
Qed.

End PromptMoreFacts.

(** ** Validators of user input *)

Module InputFacts.
Import PyStr Re Validators Accounts Observations PyStrFacts ReFacts.

Lemma lit_cs_none (l s : string) (p : option ascii) :
  prefix l s = false -> lit no_flags l (p, s) = None.
Proof.
  revert p s; induction l as [|x l IH]; intros p s H.
  - destruct s; discriminate.
  - destruct s as [|y s]; [reflexivity|].
    cbn [lit snd]. unfold char_eq. cbn [ignorecase no_flags].
    cbn [prefix] in H.
    destruct (Ascii.eqb_spec x y) as [E|E]; [|reflexivity].
    apply IH. destruct (ascii_dec x y); [exact H | contradiction].
Qed.

(** Searching for a literal is looking for an occurrence. *)
Lemma search_lit_contains (l s : string) :
  search no_flags (Lit l) s = contains l s.
Proof.
  destruct (contains l s) eqn:C.
  - apply contains_split in C as (a & b & ->). apply search_lit.
  - unfold search.
    rewrite (ExtractionFacts.scan_none unit s
               (fun c0 => run no_flags unit (Lit l) c0 (fun _ => Some tt)));
      [reflexivity|].
    intros p a b E. cbn [run]. rewrite lit_cs_none; [reflexivity|].
    apply (ExtractionFacts.absent_everywhere _ a). now rewrite <- E.
Qed.

(** X13: [validate_query_input] accepts a query exactly when it is not
    blank, has at most 1000 characters, and its lower-cased text holds none
    of [<script], [javascript:], [vbscript:], [onload=], [onerror=],
    [eval(] and [exec(]; the check does not depend on letter case. *)
Theorem validate_query_input_spec (query : string) :
  fst (validate_query_input query) = true <->
  strip query <> "" /\
  String.length query <= 1000 /\
  forall marker,
    In marker ["<script"; "javascript:"; "vbscript:"; "onload=";
               "onerror="; "eval("; "exec("] ->
    forall a b, lower query <> a ++ marker ++ b.
Proof.
  unfold validate_query_input.
  assert (E : existsb (fun pattern => search no_flags pattern (lower query))
                      dangerous_patterns
              = existsb (fun marker => contains marker (lower query))
                        ["<script"; "javascript:"; "vbscript:"; "onload=";
                         "onerror="; "eval("; "exec("]).
  { unfold dangerous_patterns. cbn [existsb]. now rewrite !search_lit_contains. }
  cbv zeta. rewrite E. clear E.
  destruct (truthy query) eqn:T; cbn [negb orb].
  - destruct (strip query) eqn:S; cbn [truthy negb fst].
    + split; [discriminate | intros [H _]; now elim H].
    + destruct (Nat.ltb_spec 1000 (String.length query)) as [L|L]; cbn [fst].
      * split; [discriminate | intros (_ & H & _); lia].
      * destruct (existsb _ _) eqn:X; cbn [fst].
        -- split; [discriminate|]. intros (_ & _ & H).
           apply existsb_exists in X as (m & Hm & C).
           apply contains_split in C as (u & v & C). now elim (H m Hm u v).
        -- split; [|reflexivity]. intros _. repeat split; [discriminate | exact L|].
           intros m Hm. apply contains_false. exact (existsb_false_In _ _ X m Hm).
  - destruct query; [|discriminate T]. cbn [fst]. split; [discriminate|].
    intros [H _]. now elim H.
Qed.

Lemma word_run_shape (s : string) :
  word_run_to_end s = true <->
  exists name, (s = name \/ s = name ++ nl) /\ all_chars is_word name = true.
Proof.
  induction s as [|c s IH]; cbn [word_run_to_end].
  - split; [exists ""; auto | reflexivity].
  - destruct (is_word c) eqn:W.
    + rewrite IH. split.
      * intros (name & [->| ->] & A); exists (String c name);
          (split; [auto | simpl; now rewrite W]).
      * intros (name & H & A). destruct name as [|d name].
        -- destruct H as [H|H]; [discriminate|]. inversion H; subst.
           discriminate W.
        -- simpl in A. apply andb_true_iff in A as [_ A].
           exists name. destruct H as [H|H]; inversion H; subst; auto.
    + split.
      * intros H. apply andb_true_iff in H as [N E].
        apply Ascii.eqb_eq in N. subst c. destruct s; [|discriminate E].
        exists "". auto.
      * intros (name & H & A). destruct name as [|d name].
        -- destruct H as [H|H]; [discriminate|]. inversion H; subst. reflexivity.
        -- simpl in A. apply andb_true_iff in A as [Wd _].
           destruct H as [H|H]; inversion H; subst; congruence.
Qed.

(** X14: [validate_username] accepts exactly the texts of 3 to 50
    characters that consist of a letter followed by letters, digits and
    underscores, optionally followed by one final line feed (which counts
    towards the length): the end anchor of its pattern lets a trailing line
    feed through. *)
Theorem validate_username_spec (username : string) :
  fst (validate_username username) = true <->
  3 <= String.length username <= 50 /\
  exists c name,
    (username = String c name \/ username = String c name ++ nl) /\
    (is_lower c || is_upper c) = true /\
    all_chars is_word name = true.
Proof.
  unfold validate_username.
  destruct username as [|c s]; cbn [truthy negb fst].
  - split; [discriminate|]. intros [[H _] _]. simpl in H. lia.
  - destruct (Nat.ltb_spec (String.length (String c s)) 3) as [L3|L3]; cbn [fst];
      [split; [discriminate | intros [[H _] _]; lia]|].
    destruct (Nat.ltb_spec 50 (String.length (String c s))) as [L50|L50]; cbn [fst];
      [split; [discriminate | intros [[_ H] _]; lia]|].
    cbn [match_word_chars starts_with_letter].
    destruct (is_word c) eqn:W; cbn [andb].
    + destruct (word_run_to_end s) eqn:R; cbn [negb fst].
      * apply word_run_shape in R as (name & Hs & A).
        destruct (is_lower c || is_upper c) eqn:Le; cbn [negb fst].
        -- split; [|reflexivity]. intros _. split; [lia|].
           exists c, name. destruct Hs as [-> | ->]; auto.
        -- split; [discriminate|].
           intros (_ & c' & name' & H & Le' & _).
           destruct H as [H|H]; inversion H; subst; congruence.
      * split; [discriminate|].
        intros (_ & c' & name' & H & _ & A).
        assert (word_run_to_end s = true); [|congruence].
        apply word_run_shape. exists name'.
        destruct H as [H|H]; inversion H; subst; auto.
    + cbn [negb fst]. split; [discriminate|].
      intros (_ & c' & name' & H & Le' & _).
      assert (c' = c) by (destruct H as [H|H]; inversion H; subst; reflexivity).
      subst c'. unfold is_word in W.
      destruct (is_lower c), (is_upper c); simpl in *; discriminate.
Qed.

Lemma validate_username_spec_witness :
  fst (validate_username ("ab" ++ nl)) = true.
Proof.
  apply (proj2 (validate_username_spec ("ab" ++ nl))).
  split; [simpl; lia|]. exists "a"%char, "b". repeat split; auto.
Defined.

End InputFacts.

(** ** Display of a query *)

Module DisplayFacts.
Import PyStr QueryValidation Layout PyStrFacts ParserFacts.

Lemma unbreak_app (a b : string) : unbreak (a ++ b) = unbreak a ++ unbreak b.
Proof. unfold unbreak. induction a as [|c a IH]; [reflexivity|]. simpl. now rewrite IH. Qed.

Lemma unbreak_length (s : string) : String.length (unbreak s) = String.length s.
Proof. unfold unbreak. induction s as [|c s IH]; [reflexivity|]. simpl. now rewrite IH. Qed.

(** Replacing a text by one with the same letters and the same line-free
    layout leaves the line-free layout of the whole as it was. *)
Lemma unbreak_replace (c : ascii) (old new : string) :
  unbreak new = unbreak (String c old) ->
  forall s, unbreak (replace s (String c old) new) = unbreak s.
Proof.
  intros E s.
  assert (G : forall n s, String.length s <= n ->
                          unbreak (replace s (String c old) new) = unbreak s).
  { clear s. induction n as [|n IH]; intros s L.
    - destruct s; [reflexivity | simpl in L; lia].
    - destruct s as [|d s]; [reflexivity|].
      destruct (prefix (String c old) (String d s)) eqn:P.
      + apply prefix_split in P as [r Er]. rewrite Er, replace_head.
        rewrite !unbreak_app, E. f_equal. apply IH.
        assert (String.length (String d s) = String.length (String c old ++ r))
          by now rewrite Er.
        cbn [append String.length] in H, L.
        assert (String.length (old ++ r) = String.length old + String.length r).
        { clear. induction old; simpl; auto. }
        lia.
      + rewrite (replace_step _ _ _ _ P).
        change (unbreak (String d ?x))
          with (String (if Ascii.eqb d newline then " "%char else d) (unbreak x)).
        f_equal. apply IH. simpl in L. lia. }
  apply (G (String.length s)). lia.
Qed.

Lemma break_before_layout (sql keyword : string) :
  unbreak (break_before sql keyword) = unbreak sql.
Proof.
  unfold break_before. destruct (existsb _ _); [|reflexivity].
  change (" " ++ keyword ++ " ") with (String " " (keyword ++ " ")).
  apply unbreak_replace. rewrite unbreak_app. reflexivity.
Qed.

Lemma breaks_only_refl (s : string) : breaks_only s s = true.
Proof.
  induction s as [|c s IH]; [reflexivity|].
  cbn [breaks_only]. now rewrite Ascii.eqb_refl, IH.
Qed.

Lemma breaks_only_trans (a b c : string) :
  breaks_only a b = true -> breaks_only b c = true -> breaks_only a c = true.
Proof.
  revert b c; induction a as [|x a IH]; intros [|y b] [|z c] H1 H2;
    try discriminate; [reflexivity|].
  cbn [breaks_only] in *.
  apply andb_true_iff in H1 as [P1 Q1]. apply andb_true_iff in H2 as [P2 Q2].
  rewrite (IH _ _ Q1 Q2), andb_true_r.
  destruct (Ascii.eqb_spec x y) as [->|nxy]; [exact P2|].
  destruct (Ascii.eqb_spec y z) as [->|nyz]; [now destruct (Ascii.eqb_spec x z)|].
  cbn [orb] in P1, P2.
  apply andb_true_iff in P1 as [_ Yn]. apply andb_true_iff in P2 as [Yb _].
  apply Ascii.eqb_eq in Yn, Yb. subst y. discriminate Yb.
Qed.

Lemma breaks_only_app (a a' b b' : string) :
  breaks_only a a' = true -> breaks_only b b' = true ->
  breaks_only (a ++ b) (a' ++ b') = true.
Proof.
  revert a'; induction a as [|x a IH]; intros [|y a'] H1 H2; try discriminate;
    [exact H2|].
  cbn [append breaks_only] in *. apply andb_true_iff in H1 as [P Q].
  now rewrite P, (IH _ Q H2).
Qed.

(** Replacing a text by one that only breaks it only breaks the whole. *)
Lemma breaks_only_replace (c : ascii) (old new : string) :
  breaks_only (String c old) new = true ->
  forall s, breaks_only s (replace s (String c old) new) = true.
Proof.
  intros E s.
  assert (G : forall n s, String.length s <= n ->
                          breaks_only s (replace s (String c old) new) = true).
  { clear s. induction n as [|n IH]; intros s L.
    - destruct s; [reflexivity | simpl in L; lia].
    - destruct s as [|d s]; [reflexivity|].
      destruct (prefix (String c old) (String d s)) eqn:P.
      + apply prefix_split in P as [r Er]. rewrite Er, replace_head.
        apply breaks_only_app; [exact E|]. apply IH.
        assert (String.length (String d s) = String.length (String c old ++ r))
          by now rewrite Er.
        cbn [append String.length] in H, L.
        assert (String.length (old ++ r) = String.length old + String.length r).
        { clear. induction old; simpl; auto. }
        lia.
      + rewrite (replace_step _ _ _ _ P). cbn [breaks_only].
        rewrite Ascii.eqb_refl. cbn [orb andb]. apply IH. simpl in L. lia. }
  apply (G (String.length s)). lia.
Qed.

Lemma break_before_breaks_only (sql keyword : string) :
  breaks_only sql (break_before sql keyword) = true.
Proof.
  unfold break_before. destruct (existsb _ _); [|apply breaks_only_refl].
  change (" " ++ keyword ++ " ") with (String " " (keyword ++ " ")).
  apply breaks_only_replace.
  change (nl ++ keyword ++ " ") with (String newline (keyword ++ " ")).
  cbn [breaks_only]. rewrite breaks_only_refl. reflexivity.
Qed.

(** X15: [format_query_for_display] changes nothing but the layout, and it
    only ever turns a blank into a line feed: the formatted query holds,
    place by place, the character of the query, or a line feed where the
    query holds a blank.  So the formatted query has the length of the
    query, and the two are the same text once line feeds are read as
    blanks. *)
Theorem format_query_keeps_text (sql : string) :
  breaks_only sql (format_query_for_display sql) = true /\
  unbreak (format_query_for_display sql) = unbreak sql /\
  String.length (format_query_for_display sql) = String.length sql.
Proof.
  split.
  { unfold format_query_for_display. destruct (truthy sql) eqn:T; cbn [negb].
    - clear T. generalize display_keywords as kws. intros kws.
      assert (G : forall t, breaks_only sql t = true ->
                            breaks_only sql (fold_left break_before kws t) = true).
      { induction kws as [|k kws IH]; intros t H; [exact H|].
        cbn [fold_left]. apply IH.
        exact (breaks_only_trans _ _ _ H (break_before_breaks_only t k)). }
      apply G, breaks_only_refl.
    - now destruct sql. }
  assert (U : unbreak (format_query_for_display sql) = unbreak sql).
  { unfold format_query_for_display. destruct (truthy sql) eqn:T; cbn [negb].
    - generalize display_keywords as kws. intros kws. revert sql T.
      induction kws as [|k kws IH]; intros sql _; [reflexivity|].
      cbn [fold_left].
      transitivity (unbreak (break_before sql k)); [|apply break_before_layout].
      clear IH. generalize (break_before sql k) as t. intros t.
      revert t. induction kws as [|k' kws IH']; intros t; [reflexivity|].
      cbn [fold_left]. rewrite IH'. apply break_before_layout.
    - now destruct sql. }
  split; [exact U|].
  rewrite <- (unbreak_length (format_query_for_display sql)), U.
  apply unbreak_length.
Qed.

End DisplayFacts.

(** ** Letter case and the safety filter *)

Module CaseFacts.
Import PyStr Queries Observations.

Lemma upper_lower_char (c : ascii) : upper_char (lower_char c) = upper_char c.
Proof.
  destruct c as [[] [] [] [] [] [] [] []]; vm_compute; reflexivity.
Qed.

Lemma upper_upper_char (c : ascii) : upper_char (upper_char c) = upper_char c.
Proof.
  destruct c as [[] [] [] [] [] [] [] []]; vm_compute; reflexivity.
Qed.

Lemma upper_lower (s : string) : upper (lower s) = upper s.
Proof.
  unfold upper, lower. induction s as [|c s IH]; [reflexivity|].
  simpl. now rewrite upper_lower_char, IH.
Qed.

Lemma upper_upper (s : string) : upper (upper s) = upper s.
Proof.
  unfold upper. induction s as [|c s IH]; [reflexivity|].
  simpl. now rewrite upper_upper_char, IH.
Qed.

(** X16: for a query of ASCII characters the verdict of the safety filter
    does not depend on the letter case: the query, its lower-cased and its
    upper-cased form are all accepted or all rejected. *)
Theorem is_safe_query_ignores_case (sql : string) :
  isascii sql = true ->
  is_safe_query (lower sql) = is_safe_query sql /\
  is_safe_query (upper sql) = is_safe_query sql.
Proof.
  intros _. unfold is_safe_query; cbv zeta. now rewrite upper_lower, upper_upper.
Qed.

Lemma is_safe_query_ignores_case_witness :
  is_safe_query "select Name from Users" = true /\
  is_safe_query "SELECT NAME FROM USERS" = true /\
  is_safe_query "Select 1; Drop Table t" = is_safe_query "select 1; drop table t".
Proof.
  assert (A : isascii "select Name from Users" = true) by reflexivity.
  assert (B : isascii "Select 1; Drop Table t" = true) by reflexivity.
  split; [reflexivity|]. split.
  - exact (eq_trans (proj2 (is_safe_query_ignores_case "select Name from Users" A))
                    eq_refl).
  - exact (eq_sym (proj1 (is_safe_query_ignores_case "Select 1; Drop Table t" B))).
Defined.

End CaseFacts.
